(** * pyblackjack-v2: the rules engine (cards.py, has_hands.py) in Rocq

    A shallow embedding of the classes [Card], [Deck], [Hand], [HasHands],
    [Player] and [Dealer], followed by the statements proved about them.

    Conventions of the embedding.
    - A Python method that can raise is a computation in a state-and-exception
      monad [M S A := S -> Res A * S]: the state it returns when it raises is
      the state at the moment of the [raise], since Python undoes nothing.
    - [Hand] objects live in a heap (a list, a reference is an index), so that
      the hand a player holds and the hand passed to [hit] or [split] are the
      same object.
    - The constants of the module [settings] are the fields of the class
      [Settings]; what is proved holds for every value of them. *)

From Stdlib Require Import ZArith String Ascii List Lia Bool.
From Stdlib Require DecimalString DecimalPos DecimalZ.
From stdpp Require Import base list.
Import ListNotations.
Local Open Scope Z_scope.

(** ** Exceptions and the monad *)

(** The exceptions the engine raises.  [ValueError] carries its message,
    which is how the source tells its error kinds apart.  [Dangling] is not a
    Python exception: it is what the model answers for a reference that points
    outside the heap, which no Python program can build. *)
Inductive exn : Type :=
| ValueError (msg : string)
| TypeError
| AttributeError
| IndexError
| Dangling.

Inductive Res (A : Type) : Type :=
| Ok (a : A)
| Raise (e : exn).
Arguments Ok {A} a.
Arguments Raise {A} e.

Definition res_bind {A B} (r : Res A) (k : A -> Res B) : Res B :=
  match r with
  | Ok a => k a
  | Raise e => Raise e
  end.

Definition M (S A : Type) : Type := S -> Res A * S.

Definition ret {S A} (a : A) : M S A := fun s => (Ok a, s).
Definition raise {S A} (e : exn) : M S A := fun s => (Raise e, s).
Definition bind {S A B} (m : M S A) (k : A -> M S B) : M S B :=
  fun s =>
    match m s with
    | (Ok a, s') => k a s'
    | (Raise e, s') => (Raise e, s')
    end.
Definition get {S} : M S S := fun s => (Ok s, s).
Definition gets {S A} (f : S -> A) : M S A := fun s => (Ok (f s), s).
Definition modify {S} (f : S -> S) : M S unit := fun s => (Ok tt, f s).
Definition lift {S A} (r : Res A) : M S A := fun s => (r, s).

(** Looking up an attribute the class does not define. *)
Definition missing_attribute {S A} (name : string) : M S A :=
  raise AttributeError.

Declare Scope py_scope.
Delimit Scope py_scope with py.
Notation "x <- m ;; k" := (bind m (fun x => k))
  (at level 100, m at next level, right associativity) : py_scope.
Notation "m ;; k" := (bind m (fun _ => k))
  (at level 100, right associativity) : py_scope.
Notation "'let!' x ':=' r 'in' k" := (res_bind r (fun x => k))
  (at level 100, x name, r at next level, right associativity) : py_scope.
Local Open Scope py_scope.

(** [for x in l: body x] *)
Fixpoint for_ {S X} (l : list X) (body : X -> M S unit) : M S unit :=
  match l with
  | [] => ret tt
  | x :: l' => body x ;; for_ l' body
  end.

(** ** Python built-ins used by the engine *)

(** [sum(l)]: starts from 0 and adds from the left. *)
Definition py_sum (l : list Z) : Z := fold_left Z.add l 0.

(** [l.count(x)] on a list of strings. *)
Definition py_count (x : string) (l : list string) : nat :=
  length (List.filter (String.eqb x) l).

(** [x in l] on a list (or set) of strings. *)
Definition py_in (x : string) (l : list string) : bool :=
  existsb (String.eqb x) l.

(** [range(n)] *)
Definition py_range (n : Z) : list Z :=
  map Z.of_nat (seq 0 (Z.to_nat n)).

(** [l.pop()]: the last element and the list without it. *)
Fixpoint py_pop {X} (l : list X) : option (X * list X) :=
  match l with
  | [] => None
  | [x] => Some (x, [])
  | x :: l' =>
      match py_pop l' with
      | Some (y, r) => Some (y, x :: r)
      | None => None
      end
  end.

Definition digit_of_ascii (c : ascii) : option Z :=
  let n := Z.of_nat (nat_of_ascii c) in
  if (48 <=? n) && (n <=? 57) then Some (n - 48) else None.

Fixpoint py_int_digits (acc : Z) (s : string) : Res Z :=
  match s with
  | EmptyString => Ok acc
  | String c s' =>
      match digit_of_ascii c with
      | Some d => py_int_digits (10 * acc + d) s'
      | None => Raise (ValueError "invalid literal for int()")
      end
  end.

(** [int(s)] on a string of decimal digits; anything else is a [ValueError]
    (signs and blanks, which [int] also reads, occur in no rank). *)
Definition py_int (s : string) : Res Z :=
  match s with
  | EmptyString => Raise (ValueError "invalid literal for int()")
  | _ => py_int_digits 0 s
  end.

Fixpoint res_map {X Y} (f : X -> Res Y) (l : list X) : Res (list Y) :=
  match l with
  | [] => Ok []
  | x :: l' =>
      let! y := f x in
      let! ys := res_map f l' in
      Ok (y :: ys)
  end.

(** ** settings *)

(** The constants of the module [settings]. *)
Class Settings : Type := {
  MAX_DECK_PACKS : Z;
  MAX_SPLITS : Z;
  MINIMUM_BET : Z
}.

(** ** class Card *)

Inductive Rank : Type :=
| Ace | Two | Three | Four | Five | Six | Seven
| Eight | Nine | Ten | Jack | Queen | King.

Inductive Suit : Type := Spades | Diamonds | Hearts | Clubs.

Module Card.

Definition rank_str (r : Rank) : string :=
  match r with
  | Ace => "A" | Two => "2" | Three => "3" | Four => "4" | Five => "5"
  | Six => "6" | Seven => "7" | Eight => "8" | Nine => "9" | Ten => "10"
  | Jack => "J" | Queen => "Q" | King => "K"
  end.

Definition suit_str (s : Suit) : string :=
  match s with
  | Spades => "♠" | Diamonds => "♦" | Hearts => "♥" | Clubs => "♣"
  end.

(** The ranks and suits in the order of [Card.RANKS] and [Card.SUITS]. *)
Definition all_suits : list Suit := [Spades; Diamonds; Hearts; Clubs].
Definition all_ranks : list Rank :=
  [Ace; Two; Three; Four; Five; Six; Seven; Eight; Nine; Ten;
   Jack; Queen; King].

Definition SUITS : list string := map suit_str all_suits.
Definition RANKS : list string := map rank_str all_ranks.

(** A constructed card.  [__init__] refuses every rank and suit outside
    [RANKS] and [SUITS], and the two fields are never assigned again, so a
    card is one of the thirteen ranks and one of the four suits. *)
Record t : Type := mk { rank : Rank; suit : Suit }.

(** [Card(rank, suit)] *)
Definition init (rank suit : string) : Res t :=
  match List.find (fun r => String.eqb (rank_str r) rank) all_ranks with
  | None => Raise (ValueError "Invalid rank passed.")
  | Some r =>
      match List.find (fun s => String.eqb (suit_str s) suit) all_suits with
      | None => Raise (ValueError "Invalid suit passed.")
      | Some s => Ok (mk r s)
      end
  end.

Definition get_rank (self : t) : string := rank_str (rank self).
Definition get_suit (self : t) : string := suit_str (suit self).
Definition get_string (self : t) : string :=
  (rank_str (rank self) ++ suit_str (suit self))%string.

End Card.

(** ** class Deck *)

Module Deck.

(** A deck object.  Inside [class Deck] the name [__cards] is the attribute
    [_Deck__cards]; the name [__Deck_cards], which [pass_cards] assigns, is
    mangled as well and is another attribute, [_Deck__Deck_cards], absent
    ([None]) until [pass_cards] sets it. *)
Record t : Type := mk {
  _Deck__cards : list Card.t;
  _Deck__Deck_cards : option (list Card.t)
}.

Definition set_cards (cs : list Card.t) (d : t) : t :=
  mk cs (_Deck__Deck_cards d).

(** The three nested loops of [__init__], run on the list [self.__cards]. *)
Definition fill (number_of_decks : Z) : M (list Card.t) unit :=
  for_ (py_range number_of_decks) (fun _ =>
    for_ Card.SUITS (fun suit =>
      for_ Card.RANKS (fun rank =>
        card <- lift (Card.init rank suit) ;;
        modify (fun cards => cards ++ [card])))).

(** [Deck(number_of_decks)] *)
Definition init `{Settings} (number_of_decks : Z) : Res t :=
  if (number_of_decks <? 0) || (number_of_decks >? MAX_DECK_PACKS)
  then Raise (ValueError "Invalid number of decks passed.")
  else
    match fill number_of_decks [] with
    | (Ok _, cards) => Ok (mk cards None)
    | (Raise e, _) => Raise e
    end.

(** [Deck.pass_cards(cards)].  The [isinstance] test holds of every
    [Card.t]. *)
Definition pass_cards `{Settings} (cards : list Card.t) : Res t :=
  if (length cards =? 0)%nat
  then Raise (ValueError "Deck cannot be empty.")
  else
    let! deck := init 0 in
    Ok (mk (_Deck__cards deck) (Some cards)).

(** [deck.draw()].  ([shuffle], which permutes [_Deck__cards] with Python's
    [Random], has no counterpart here: nothing below is about a shuffled
    deck.) *)
Definition draw : M t Card.t :=
  self <- get ;;
  match _Deck__cards self with
  | [] => raise (ValueError "Taking card from empty deck.")
  | card :: rest => modify (set_cards rest) ;; ret card
  end.

End Deck.

(** ** class Hand *)

Module Hand.

Record t : Type := mk {
  __cards : list Card.t;
  __bet : option Z;
  __is_active : bool
}.

Definition set_cards (cs : list Card.t) (h : t) : t :=
  mk cs (__bet h) (__is_active h).
Definition set_bet_field (b : option Z) (h : t) : t :=
  mk (__cards h) b (__is_active h).
Definition set_is_active (a : bool) (h : t) : t :=
  mk (__cards h) (__bet h) a.

(** [Hand(cards)]; [None] is the default argument. *)
Definition init (cards : option (list Card.t)) : t :=
  match cards with
  | None => mk [] None true
  | Some cs => mk cs None true
  end.

Definition get_cards : M t (list Card.t) := gets __cards.
Definition get_bet : M t (option Z) := gets __bet.
Definition is_active : M t bool := gets __is_active.

Definition add_card (card : Card.t) : M t unit :=
  modify (fun h => set_cards (__cards h ++ [card]) h).

Definition set_bet `{Settings} (bet : Z) : M t unit :=
  if bet <? MINIMUM_BET
  then raise (ValueError "Bet must be greater than minimum bet.")
  else modify (set_bet_field (Some bet)).

Definition deactivate : M t unit := modify (set_is_active false).

(** The [while] loop of [get_score]; it runs at most [eleven_counter]
    times, which is what the recursion is on. *)
Fixpoint ace_loop (aces_quantity : nat) (score : Z)
    (eleven_counter : nat) (aces_score : list Z) : list Z :=
  match eleven_counter with
  | O => aces_score
  | S k =>
      if py_sum aces_score + score >? 21
      then ace_loop aces_quantity score k
             (repeat 11 k ++ repeat 1 (aces_quantity - k)%nat)
      else aces_score
  end.

Definition score_of (hand : list Card.t) : Res Z :=
  if (length hand =? 0)%nat then Ok 0
  else
    let ranks := map Card.get_rank hand in
    let ranks :=
      map (fun rank => if py_in rank ["J"; "Q"; "K"] then "10" else rank)%string
          ranks in
    let aces_quantity := py_count "A" ranks in
    let! number_ranks :=
      res_map py_int
        (List.filter (fun rank => negb (String.eqb rank "A")) ranks) in
    let score := py_sum number_ranks in
    if (aces_quantity =? 0)%nat then Ok score
    else
      let eleven_counter := aces_quantity in
      let aces_score := repeat 11 eleven_counter in
      let aces_score :=
        ace_loop aces_quantity score eleven_counter aces_score in
      Ok (py_sum aces_score + score).

Definition get_score : M t Z :=
  self <- get ;; lift (score_of (__cards self)).

Definition is_blackjack : M t bool :=
  score <- get_score ;;
  if negb (score =? 21) then ret false
  else
    self <- get ;;
    if negb (length (__cards self) =? 2)%nat then ret false
    else ret true.

Definition is_bust : M t bool :=
  score <- get_score ;; ret (score >? 21).

(** [has_pair] starts by calling [self.number_of_cards()], a method that
    [class Hand] does not define. *)
Definition has_pair : M t bool :=
  number_of_cards <- missing_attribute "number_of_cards" ;;
  if negb (number_of_cards =? 2)%nat then ret false
  else
    self <- get ;;
    match __cards self with
    | c0 :: c1 :: _ =>
        if negb (String.eqb (Card.get_rank c0) (Card.get_rank c1))
        then ret false
        else ret true
    | _ => raise IndexError
    end.

(** [self.__cards.pop()] *)
Definition pop_card : M t Card.t :=
  self <- get ;;
  match py_pop (__cards self) with
  | None => raise IndexError
  | Some (card, rest) => modify (set_cards rest) ;; ret card
  end.

Definition split : M t Card.t :=
  pair <- has_pair ;;
  if negb pair then raise (ValueError "Hand cannot be split.")
  else pop_card.

(** [self.__bet *= 2] *)
Definition double_bet : M t unit :=
  self <- get ;;
  match __bet self with
  | None => raise TypeError
  | Some bet => modify (set_bet_field (Some (bet * 2)))
  end.

Definition get_card_by_index (index : Z) : M t Card.t :=
  if negb ((index =? 0) || (index =? 1))
  then raise (ValueError "get_card_by_index method being used incorrectly.")
  else
    self <- get ;;
    match __cards self !! Z.to_nat index with
    | None => raise IndexError
    | Some card => ret card
    end.

End Hand.

(** ** The object store *)

(** A reference to a [Hand] object. *)
Definition ref : Type := nat.

(** What a method of a hand holder of class [H] can reach: the holder itself,
    the hand objects, and the deck it is handed. *)
Record World (H : Type) : Type := mkWorld {
  self : H;
  heap : list Hand.t;
  deck : Deck.t
}.
Arguments mkWorld {H} self heap deck.
Arguments self {H} w.
Arguments heap {H} w.
Arguments deck {H} w.

Section Store.
Context {H : Type}.

Definition on_self {A} (m : M H A) : M (World H) A :=
  fun w =>
    let (r, s) := m (self w) in (r, mkWorld s (heap w) (deck w)).

Definition on_deck {A} (m : M Deck.t A) : M (World H) A :=
  fun w =>
    let (r, d) := m (deck w) in (r, mkWorld (self w) (heap w) d).

(** A method call on the hand object at [r]. *)
Definition on_hand {A} (r : ref) (m : M Hand.t A) : M (World H) A :=
  fun w =>
    match heap w !! r with
    | None => (Raise Dangling, w)
    | Some h =>
        let (res, h') := m h in
        (res, mkWorld (self w) (<[r := h']> (heap w)) (deck w))
    end.

(** A method call on a variable that holds a hand or [None]. *)
Definition call {A} (hand : option ref) (m : M Hand.t A) : M (World H) A :=
  match hand with
  | None => raise AttributeError
  | Some r => on_hand r m
  end.

(** A newly built hand object gets the next free reference. *)
Definition new_hand (h : Hand.t) : M (World H) ref :=
  fun w => (Ok (length (heap w)), mkWorld (self w) (heap w ++ [h]) (deck w)).

End Store.

(** ** class HasHands *)

Module HasHands.

Definition HIT : string := "hit".
Definition STICK : string := "stick".
Definition SPLIT : string := "split".
Definition DOUBLE_DOWN : string := "double-down".

(** The abstract methods. *)
Class ops (H : Type) : Type := {
  get_hand : M (World H) (option ref);
  give_hand : ref -> M (World H) unit;
  reset : M (World H) unit
}.

Section Shared.
Context {H : Type} `{ops H}.

(** [if hand is None: hand = self.get_hand()] *)
Definition default_hand (hand : option ref) : M (World H) (option ref) :=
  match hand with
  | None => get_hand
  | Some _ => ret hand
  end.

Definition hit (hand : option ref) : M (World H) unit :=
  hand <- default_hand hand ;;
  drawn_card <- on_deck Deck.draw ;;
  call hand (Hand.add_card drawn_card) ;;
  bust <- call hand Hand.is_bust ;;
  stop <- (if bust : bool then ret true
           else cards <- call hand Hand.get_cards ;;
                ret (length cards =? 5)%nat) ;;
  if stop : bool then call hand Hand.deactivate else ret tt.

Definition stick (hand : option ref) : M (World H) unit :=
  hand <- default_hand hand ;;
  call hand Hand.deactivate.

End Shared.

End HasHands.

(** ** class Player *)

Module Player.

Record t : Type := mk {
  __name : string;
  __purse : Z;
  __hands : list ref;
  __split_count : Z
}.

Definition set_purse (p : Z) (s : t) : t :=
  mk (__name s) p (__hands s) (__split_count s).
Definition set_hands (hs : list ref) (s : t) : t :=
  mk (__name s) (__purse s) hs (__split_count s).
Definition set_split_count (n : Z) (s : t) : t :=
  mk (__name s) (__purse s) (__hands s) n.

(** [Player(name, purse)] *)
Definition init (name : string) (purse : Z) : Res t :=
  if String.eqb name EmptyString
  then Raise (ValueError "Name cannot be empty.")
  else Ok (mk name purse [] 0).

Definition get_all_hands : M (World t) (list ref) :=
  on_self (gets __hands).

Definition get_name : M (World t) string := on_self (gets __name).

(** The body of [get_purse] is its docstring and nothing else: the call
    returns [None]. *)
Definition get_purse : M (World t) (option Z) := ret None.

(** [for hand in self.__hands: if hand.is_active(): return hand] *)
Fixpoint first_active (hands : list ref) : M (World t) (option ref) :=
  match hands with
  | [] => ret None
  | hand :: rest =>
      active <- on_hand hand Hand.is_active ;;
      if active : bool then ret (Some hand) else first_active rest
  end.

Definition get_hand : M (World t) (option ref) :=
  hands <- on_self (gets __hands) ;; first_active hands.

Definition give_hand (hand : ref) : M (World t) unit :=
  on_self (modify (fun s => set_hands (__hands s ++ [hand]) s)).

Definition reset : M (World t) unit :=
  on_self (modify (set_hands [])) ;;
  on_self (modify (set_split_count 0)).

#[global] Instance has_hands : HasHands.ops t := {
  HasHands.get_hand := get_hand;
  HasHands.give_hand := give_hand;
  HasHands.reset := reset
}.

(** [self.__purse -= hand.get_bet()] *)
Definition debit (hand : option ref) : M (World t) unit :=
  purse <- on_self (gets __purse) ;;
  bet <- call hand Hand.get_bet ;;
  match bet with
  | None => raise TypeError
  | Some b => on_self (modify (set_purse (purse - b)))
  end.

Definition can_split `{Settings} (hand : option ref) : M (World t) bool :=
  hand <- HasHands.default_hand hand ;;
  purse <- on_self (gets __purse) ;;
  bet <- call hand Hand.get_bet ;;
  short <- match bet with
           | None => raise TypeError
           | Some b => ret (purse <? b)
           end ;;
  if short : bool then ret false
  else
    split_count <- on_self (gets __split_count) ;;
    if split_count >=? MAX_SPLITS then ret false
    else call hand Hand.has_pair.

Definition split `{Settings} (hand : option ref) : M (World t) unit :=
  hand <- HasHands.default_hand hand ;;
  on_self (modify (fun s => set_split_count (__split_count s + 1) s)) ;;
  debit hand ;;
  second_card <- call hand Hand.pop_card ;;
  split_hand <- new_hand (Hand.init (Some [second_card])) ;;
  bet <- call hand Hand.get_bet ;;
  on_hand split_hand
    (match bet with
     | None => raise (ValueError "Bet must be an integer.")
     | Some b => Hand.set_bet b
     end) ;;
  HasHands.hit hand ;;
  HasHands.hit (Some split_hand) ;;
  give_hand split_hand.

Definition can_double_down (hand : option ref) : M (World t) bool :=
  hand <- HasHands.default_hand hand ;;
  purse <- on_self (gets __purse) ;;
  bet <- call hand Hand.get_bet ;;
  enough <- match bet with
            | None => raise TypeError
            | Some b => ret (purse >=? b)
            end ;;
  if enough : bool
  then cards <- call hand Hand.get_cards ;; ret (length cards =? 2)%nat
  else ret false.

Definition double_down (hand : option ref) : M (World t) unit :=
  hand <- HasHands.default_hand hand ;;
  debit hand ;;
  HasHands.hit hand ;;
  call hand Hand.double_bet ;;
  call hand Hand.deactivate.

Definition get_action_choices `{Settings} (hand : option ref)
  : M (World t) (list string) :=
  hand <- HasHands.default_hand hand ;;
  let actions := [HasHands.HIT; HasHands.STICK] in
  splittable <- can_split hand ;;
  let actions :=
    if splittable : bool then actions ++ [HasHands.SPLIT] else actions in
  doublable <- can_double_down hand ;;
  let actions :=
    if doublable : bool then actions ++ [HasHands.DOUBLE_DOWN] else actions in
  ret actions.

End Player.

(** ** class Dealer *)

Module Dealer.

Record t : Type := mk { __hand : option ref }.

Definition init : t := mk None.

Definition give_hand (hand : ref) : M (World t) unit :=
  on_self (modify (fun _ => mk (Some hand))).

Definition get_hand : M (World t) (option ref) := on_self (gets __hand).

Definition reset : M (World t) unit :=
  on_self (modify (fun _ => mk None)).

#[global] Instance has_hands : HasHands.ops t := {
  HasHands.get_hand := get_hand;
  HasHands.give_hand := give_hand;
  HasHands.reset := reset
}.

Definition upcard : M (World t) Card.t :=
  hand <- on_self (gets __hand) ;;
  call hand (Hand.get_card_by_index 1).

Definition hole_card : M (World t) Card.t :=
  hand <- on_self (gets __hand) ;;
  call hand (Hand.get_card_by_index 0).

Definition can_offer_insurance : M (World t) bool :=
  card <- upcard ;;
  ret (String.eqb (Card.get_rank card) "A").

End Dealer.

(** ** Vocabulary of the statements *)

(** The values a card may count for: an ace 1 or 11, a face card 10, any other
    card its number. *)
Definition card_values (r : Rank) : list Z :=
  match r with
  | Ace => [1; 11]
  | Two => [2] | Three => [3] | Four => [4] | Five => [5] | Six => [6]
  | Seven => [7] | Eight => [8] | Nine => [9]
  | Ten | Jack | Queen | King => [10]
  end.

(** [total hand t]: [t] is the sum of one value chosen for each card. *)
Inductive total : list Card.t -> Z -> Prop :=
| total_nil : total [] 0
| total_cons c hand v t :
    In v (card_values (Card.rank c)) -> total hand t ->
    total (c :: hand) (v + t).

(** The total with every ace counted 1. *)
Fixpoint low_total (hand : list Card.t) : Z :=
  match hand with
  | [] => 0
  | c :: hand' =>
      match card_values (Card.rank c) with
      | v :: _ => v + low_total hand'
      | [] => low_total hand'
      end
  end.

(** The number of aces, and the values of the other cards. *)
Fixpoint aces (hand : list Card.t) : nat :=
  match hand with
  | [] => O
  | c :: hand' =>
      match Card.rank c with
      | Ace => S (aces hand')
      | _ => aces hand'
      end
  end.

Fixpoint hard_values (hand : list Card.t) : list Z :=
  match hand with
  | [] => []
  | c :: hand' =>
      match Card.rank c with
      | Ace => hard_values hand'
      | _ => low_total [c] :: hard_values hand'
      end
  end.

(** The lambda of [get_score] that turns the face cards into tens. *)
Definition face_to_ten (rank : string) : string :=
  if py_in rank ["J"; "Q"; "K"]%string then "10"%string else rank.

(** The score as a number ([score_of] never raises, see [score_of_value]). *)
Definition score_value (hand : list Card.t) : Z :=
  match Hand.score_of hand with
  | Ok s => s
  | Raise _ => 0
  end.

(** The hand object after it has been hit with the card [c]. *)
Definition after_hit (c : Card.t) (h : Hand.t) : Hand.t :=
  let h1 := Hand.set_cards (Hand.__cards h ++ [c]) h in
  if (score_value (Hand.__cards h1) >? 21)
     || (length (Hand.__cards h1) =? 5)%nat
  then Hand.set_is_active false h1
  else h1.

(** [n] calls of [draw] in a row, and the cards they return. *)
Fixpoint draw_many (n : nat) : M Deck.t (list Card.t) :=
  match n with
  | O => ret []
  | S n' =>
      card <- Deck.draw ;;
      cards <- draw_many n' ;;
      ret (card :: cards)
  end.

(** The card at position [i] when packs are laid one after the other, each
    pack suit by suit, each suit rank by rank. *)
Definition pack_order_card (i : nat) : Card.t :=
  Card.mk (nth (i mod 13) Card.all_ranks Ace)
          (nth ((i / 13) mod 4) Card.all_suits Spades).

(** One pack in the order [__init__] builds it. *)
Definition one_pack : list Card.t :=
  flat_map (fun s => map (fun r => Card.mk r s) Card.all_ranks) Card.all_suits.

(** The operations a player object offers. *)
Inductive player_op : Type :=
| OpHit (hand : option ref)
| OpStick (hand : option ref)
| OpSplit (hand : option ref)
| OpDoubleDown (hand : option ref)
| OpGiveHand (hand : ref)
| OpReset
| OpCanSplit (hand : option ref)
| OpCanDoubleDown (hand : option ref)
| OpGetActionChoices (hand : option ref)
| OpGetHand
| OpGetAllHands
| OpGetName
| OpGetPurse.

Definition void {S A} (m : M S A) : M S unit := m ;; ret tt.

Definition run_op `{Settings} (o : player_op) : M (World Player.t) unit :=
  match o with
  | OpHit hand => HasHands.hit hand
  | OpStick hand => HasHands.stick hand
  | OpSplit hand => Player.split hand
  | OpDoubleDown hand => Player.double_down hand
  | OpGiveHand hand => Player.give_hand hand
  | OpReset => Player.reset
  | OpCanSplit hand => void (Player.can_split hand)
  | OpCanDoubleDown hand => void (Player.can_double_down hand)
  | OpGetActionChoices hand => void (Player.get_action_choices hand)
  | OpGetHand => void Player.get_hand
  | OpGetAllHands => void Player.get_all_hands
  | OpGetName => void Player.get_name
  | OpGetPurse => void Player.get_purse
  end.

(** The operations that take a wager from the purse. *)
Definition takes_wager (o : player_op) : option (option ref) :=
  match o with
  | OpSplit hand | OpDoubleDown hand => Some hand
  | _ => None
  end.

(** [hand_of w hand r h]: the argument [hand] of a method stands, in the
    world [w], for the hand object [h] at reference [r]: it is that
    reference, or it is [None] and [get_hand] returns it. *)
Definition hand_of {H} `{HasHands.ops H}
    (w : World H) (hand : option ref) (r : ref) (h : Hand.t) : Prop :=
  HasHands.default_hand hand w = (Ok (Some r), w) /\ heap w !! r = Some h.

(** [keeps f m]: whatever [m] does and however it ends, the component [f] of
    the player is afterwards what it was. *)
Definition keeps {X A} (f : Player.t -> X) (m : M (World Player.t) A) : Prop :=
  forall w, f (self (snd (m w))) = f (self w).

(** [raises_only P m]: every exception [m] raises satisfies [P]. *)
Definition raises_only {S A} (P : exn -> Prop) (m : M S A) : Prop :=
  forall s e, fst (m s) = Raise e -> P e.

(** The exceptions other than the one [Hand.split] raises for a hand it
    refuses. *)
Definition not_cannot_split (e : exn) : Prop :=
  e <> ValueError "Hand cannot be split.".

(** Constants and objects for the statements evaluated on a concrete input. *)
Module Example.

Definition settings : Settings :=
  {| MAX_DECK_PACKS := 8; MAX_SPLITS := 3; MINIMUM_BET := 1 |}.

Definition card (r : Rank) (s : Suit) : Card.t := Card.mk r s.

(** A player with a purse of 10 whose only hand is a pair of eights with a
    bet of 50, and a deck of three cards. *)
Definition short_of_money : World Player.t :=
  mkWorld (Player.mk "Ann" 10 [0%nat] 0)
          [Hand.mk [card Eight Spades; card Eight Hearts] (Some 50) true]
          (Deck.mk [card Two Clubs; card Three Clubs; card Four Clubs] None).

(** The same player with a purse of 100. *)
Definition pair_of_eights : World Player.t :=
  mkWorld (Player.mk "Ann" 100 [0%nat] 0)
          [Hand.mk [card Eight Spades; card Eight Hearts] (Some 50) true]
          (Deck.mk [card Two Clubs; card Three Clubs; card Four Clubs] None).

(** A player with a purse of 10 and a hand of three cards with a bet of 50. *)
Definition three_cards : World Player.t :=
  mkWorld (Player.mk "Ann" 10 [0%nat] 0)
          [Hand.mk [card Two Spades; card Three Hearts; card Four Spades]
                   (Some 50) true]
          (Deck.mk [card Two Clubs; card Three Clubs] None).

(** A dealer whose hand holds one card. *)
Definition dealer_one_card : World Dealer.t :=
  mkWorld (Dealer.mk (Some 0%nat))
          [Hand.mk [card King Hearts] None true]
          (Deck.mk [] None).

(** A dealer with four low cards and a deck whose next card is a two. *)
Definition dealer_four_cards : World Dealer.t :=
  mkWorld (Dealer.mk (Some 0%nat))
          [Hand.mk [card Two Spades; card Three Hearts; card Four Spades;
                    card Two Hearts] None true]
          (Deck.mk [card Two Clubs; card Three Clubs] None).

End Example.

(** ** interface.py: the validation functions *)

(** [range(a, b)] *)
Definition py_range_from (a b : Z) : list Z :=
  map (fun i => a + Z.of_nat i) (seq 0 (Z.to_nat (b - a))).

(** [str(n)] on an integer: its decimal digits, after a minus sign when it is
    negative. *)
Definition py_str (n : Z) : string :=
  DecimalString.NilZero.string_of_int (Z.to_int n).

Module Interface.

(** What a validation function returns: the pair of a boolean and of a
    message or [None]. *)
Definition answer : Type := (bool * option string)%type.

Definition is_valid_enter (user_input : string) : answer := (true, None).

Definition is_valid_deck_quantity `{Settings} (user_input : string)
  : answer :=
  if negb (py_in user_input
             (map py_str (py_range_from 1 (MAX_DECK_PACKS + 1))))
  then (false,
        Some "[bold red]Invalid number of decks. Please try again.[/bold red]"%string)
  else (true, None).

Definition is_valid_name (user_input : string) : answer :=
  if String.eqb user_input EmptyString
  then (false, Some "[bold red]Invalid name. Please try again.[/bold red]"%string)
  else (true, None).

(** [is_valid_action(user_input, player)]; the world is the player's. *)
Definition is_valid_action `{Settings} (user_input : string)
  : M (World Player.t) answer :=
  action_choices <- Player.get_action_choices None ;;
  if negb (py_in user_input action_choices)
  then ret (false,
            Some "[bold red]Invalid action. Please try again.[/bold red]"%string)
  else ret (true, None).

End Interface.

(** ** More vocabulary *)

(** A card that counts ten. *)
Definition ten_valued (c : Card.t) : Prop := card_values (Card.rank c) = [10].

(** [returns_only P m]: every value [m] returns satisfies [P]. *)
Definition returns_only {S A} (P : A -> Prop) (m : M S A) : Prop :=
  forall s a, fst (m s) = Ok a -> P a.

(** The hand at [r] exists and is inactive. *)
Definition inactive_at (hp : list Hand.t) (r : ref) : Prop :=
  exists h, hp !! r = Some h /\ Hand.__is_active h = false.

(** [n] calls of [double_bet] in a row. *)
Fixpoint double_bet_times (n : nat) : M Hand.t unit :=
  match n with
  | O => ret tt
  | S n' => Hand.double_bet ;; double_bet_times n'
  end.

(** More objects for the statements evaluated on a concrete input. *)
Module Scene.

(** A player just built, and a deck of two cards. *)
Definition newcomer : World Player.t :=
  mkWorld (Player.mk "Bob" 100 [] 0) []
          (Deck.mk [Example.card Five Hearts; Example.card Six Hearts] None).

(** A player with a purse of 100 whose first hand has been stood and
    whose second hand, two cards with a bet of 40, is active. *)
Definition second_hand : World Player.t :=
  mkWorld (Player.mk "Bob" 100 [0%nat; 1%nat] 1)
          [Hand.mk [Example.card Ten Spades; Example.card Nine Hearts]
                   (Some 40) false;
           Hand.mk [Example.card Five Spades; Example.card Six Clubs]
                   (Some 40) true]
          (Deck.mk [Example.card Ten Hearts] None).

(** The player of [Example.pair_of_eights] facing a deck of one card. *)
Definition one_card_left : World Player.t :=
  mkWorld (Player.mk "Ann" 100 [0%nat] 0)
          [Hand.mk [Example.card Eight Spades; Example.card Eight Hearts]
                   (Some 50) true]
          (Deck.mk [Example.card Two Clubs] None).

(** A dealer showing an ace over a king in the hole. *)
Definition dealer_ace_up : World Dealer.t :=
  mkWorld (Dealer.mk (Some 0%nat))
          [Hand.mk [Example.card King Hearts; Example.card Ace Spades]
                   None true]
          (Deck.mk [] None).

End Scene.

(** Equality of cards is decidable. *)
Definition card_eq_dec (c d : Card.t) : {c = d} + {c <> d}.
Proof. decide equality; decide equality. Defined.

(** The operations that can change the list of hands of the player, and
    those that can change the split count. *)
Definition changes_hands (o : player_op) : bool :=
  match o with
  | OpSplit _ | OpGiveHand _ | OpReset => true
  | _ => false
  end.

Definition changes_split_count (o : player_op) : bool :=
  match o with
  | OpSplit _ | OpReset => true
  | _ => false
  end.

(** * Scoring *)

Section Scoring.

Lemma py_sum_from (l : list Z) (a : Z) : fold_left Z.add l a = a + py_sum l.
Proof.
  unfold py_sum. revert a.
  induction l as [|x l IH]; intros a; cbn [fold_left]; [lia|].
  rewrite (IH (a + x)), (IH (0 + x)). lia.
Qed.

Lemma py_sum_cons (x : Z) (l : list Z) : py_sum (x :: l) = x + py_sum l.
Proof. unfold py_sum at 1. simpl. apply py_sum_from. Qed.

Lemma py_sum_app (l1 l2 : list Z) : py_sum (l1 ++ l2) = py_sum l1 + py_sum l2.
Proof.
  induction l1 as [|x l1 IH]; simpl; [reflexivity|].
  rewrite !py_sum_cons, IH. lia.
Qed.

Lemma py_sum_repeat (v : Z) (n : nat) : py_sum (repeat v n) = v * Z.of_nat n.
Proof.
  induction n as [|n IH]; [simpl; unfold py_sum; simpl; lia|].
  cbn [repeat]. rewrite py_sum_cons, IH. lia.
Qed.

(** The sum of [[11]*k + [1]*(n-k)]. *)
Lemma py_sum_aces (n k : nat) :
  (k <= n)%nat ->
  py_sum (repeat 11 k ++ repeat 1 (n - k)%nat) = Z.of_nat n + 10 * Z.of_nat k.
Proof. intros Hk. rewrite py_sum_app, !py_sum_repeat. lia. Qed.

(** What the loop leaves: the largest number [j <= k] of aces counted 11
    that keeps the total at 21 or less, or no ace counted 11. *)
Lemma ace_loop_spec (n : nat) (score : Z) (k : nat) :
  (k <= n)%nat ->
  exists j : nat,
    (j <= k)%nat /\
    py_sum (Hand.ace_loop n score k (repeat 11 k ++ repeat 1 (n - k)%nat))
      = Z.of_nat n + 10 * Z.of_nat j /\
    (Z.of_nat n + 10 * Z.of_nat j + score <= 21 \/ j = O) /\
    (forall j' : nat, (j < j' <= k)%nat ->
       21 < Z.of_nat n + 10 * Z.of_nat j' + score).
Proof.
  induction k as [|k IH]; intros Hk.
  - exists O. cbn [Hand.ace_loop]. rewrite py_sum_aces by lia.
    repeat split; [lia | now right | intros j' Hj'; lia].
  - cbn [Hand.ace_loop]. rewrite (py_sum_aces n (S k)) by lia.
    destruct (Z.gtb_spec (Z.of_nat n + 10 * Z.of_nat (S k) + score) 21) as [Hgt|Hle].
    + destruct IH as (j & Hj & Hsum & Hfit & Hmax); [lia|].
      exists j. repeat split; [lia | exact Hsum | exact Hfit |].
      intros j' Hj'. destruct (Nat.eq_dec j' (S k)) as [->|Hne]; [lia|].
      apply Hmax. lia.
    + exists (S k). rewrite py_sum_aces by lia.
      repeat split; [lia | now left | intros j' Hj'; lia].
Qed.

(** The string processing of [get_score], card by card. *)
Lemma ranks_count (hand : list Card.t) :
  py_count "A" (map face_to_ten (map Card.get_rank hand)) = aces hand.
Proof.
  induction hand as [|[r s] hand IH]; [reflexivity|].
  destruct r; cbn [map aces Card.rank]; rewrite <- IH; reflexivity.
Qed.

Lemma ranks_numbers (hand : list Card.t) :
  res_map py_int
    (List.filter (fun rank => negb (String.eqb rank "A"))
       (map face_to_ten (map Card.get_rank hand)))
  = Ok (hard_values hand).
Proof.
  induction hand as [|[r s] hand IH]; [reflexivity|].
  destruct r; cbn [map hard_values Card.rank];
    match goal with
    | |- res_map _ (List.filter ?f (?x :: ?l)) = _ =>
        let b := eval vm_compute in (f x) in
        change (List.filter f (x :: l))
          with (if b then x :: List.filter f l else List.filter f l);
        cbv iota
    end;
    try exact IH;
    cbn [res_map]; rewrite IH; reflexivity.
Qed.

Lemma low_total_split (hand : list Card.t) :
  low_total hand = py_sum (hard_values hand) + Z.of_nat (aces hand).
Proof.
  induction hand as [|[r s] hand IH]; [reflexivity|].
  destruct r; cbn [low_total hard_values aces Card.rank card_values];
    rewrite ?py_sum_cons, IH; cbn [low_total card_values Card.rank]; lia.
Qed.

(** The totals of a hand: the low total plus ten for each ace counted 11. *)
Lemma total_iff (hand : list Card.t) (t : Z) :
  total hand t <->
  exists j : nat, (j <= aces hand)%nat /\ t = low_total hand + 10 * Z.of_nat j.
Proof.
  split.
  - induction 1 as [|[r s] hand v t Hv Ht (j & Hj & ->)].
    + exists O. split; [lia | reflexivity].
    + destruct r; cbn [Card.rank card_values] in Hv;
        cbn [low_total aces Card.rank card_values];
        repeat (destruct Hv as [<-|Hv]); try contradiction;
        try (exists j; split; lia).
      exists (S j). split; lia.
  - revert t. induction hand as [|[r s] hand IH]; intros t (j & Hj & ->).
    + cbn in Hj. assert (j = O) as -> by lia. cbn. constructor.
    + destruct r; cbn [low_total aces Card.rank card_values] in *;
        try (rewrite <- Z.add_assoc; constructor;
             [cbn; auto | apply IH; exists j; split; [lia | reflexivity]]).
      destruct j as [|j].
      * rewrite <- Z.add_assoc. constructor; [cbn; auto|].
        apply IH. exists O. split; [lia | reflexivity].
      * replace (1 + low_total hand + 10 * Z.of_nat (S j))
          with (11 + (low_total hand + 10 * Z.of_nat j)) by lia.
        constructor; [cbn; auto|].
        apply IH. exists j. split; [lia | reflexivity].
Qed.

(** [score_of] in closed form. *)
Lemma score_of_spec (hand : list Card.t) :
  exists j : nat,
    (j <= aces hand)%nat /\
    Hand.score_of hand = Ok (low_total hand + 10 * Z.of_nat j) /\
    (low_total hand + 10 * Z.of_nat j <= 21 \/ j = O) /\
    (forall j' : nat, (j < j' <= aces hand)%nat ->
       21 < low_total hand + 10 * Z.of_nat j').
Proof.
  unfold Hand.score_of.
  destruct hand as [|c hand'] eqn:Hhand.
  { exists O. cbn. repeat split; [lia | now right | intros j' Hj'; lia]. }
  rewrite <- Hhand. replace (length hand =? 0)%nat with false
    by (subst hand; reflexivity).
  fold face_to_ten.
  rewrite ranks_count, ranks_numbers. cbn [res_bind].
  rewrite low_total_split.
  destruct (aces hand) as [|n] eqn:Haces.
  { exists O. cbn [Nat.eqb].
    repeat split; [lia | f_equal; lia | now right | intros j' Hj'; lia]. }
  cbn [Nat.eqb].
  destruct (ace_loop_spec (S n) (py_sum (hard_values hand)) (S n))
    as (j & Hj & Hsum & Hfit & Hmax); [lia|].
  rewrite Nat.sub_diag, app_nil_r in Hsum.
  exists j. rewrite Hsum.
  repeat split; [lia | f_equal; lia | | ].
  - destruct Hfit as [Hfit|Hfit]; [left; lia | now right].
  - intros j' Hj'. specialize (Hmax j' Hj'). lia.
Qed.

Lemma score_of_value (hand : list Card.t) :
  Hand.score_of hand = Ok (score_value hand).
Proof.
  destruct (score_of_spec hand) as (j & _ & Hs & _).
  unfold score_value. now rewrite Hs.
Qed.

Lemma get_score_value (h : Hand.t) :
  Hand.get_score h = (Ok (score_value (Hand.__cards h)), h).
Proof.
  unfold Hand.get_score, bind, get, lift. now rewrite score_of_value.
Qed.

Lemma is_bust_value (h : Hand.t) :
  Hand.is_bust h = (Ok (score_value (Hand.__cards h) >? 21), h).
Proof. unfold Hand.is_bust, bind. now rewrite get_score_value. Qed.

End Scoring.

(** C4.  [get_score] always returns, and leaves the hand as it is.  When some
    choice of 1 or 11 for each ace gives a total of 21 or less, the score is
    the largest such total; when none does, it is the smallest total, every
    ace counted 1; the score of the empty hand is 0. *)
Theorem get_score_best_total (h : Hand.t) :
  exists s : Z,
    Hand.get_score h = (Ok s, h) /\
    ((exists t, total (Hand.__cards h) t /\ t <= 21) ->
       total (Hand.__cards h) s /\ s <= 21 /\
       forall t, total (Hand.__cards h) t -> t <= 21 -> t <= s) /\
    ((forall t, total (Hand.__cards h) t -> 21 < t) ->
       s = low_total (Hand.__cards h) /\ total (Hand.__cards h) s /\
       forall t, total (Hand.__cards h) t -> s <= t) /\
    (Hand.__cards h = [] -> s = 0).
Proof.
  destruct (score_of_spec (Hand.__cards h)) as (j & Hj & Hs & Hfit & Hmax).
  exists (low_total (Hand.__cards h) + 10 * Z.of_nat j).
  assert (Htot : total (Hand.__cards h)
                   (low_total (Hand.__cards h) + 10 * Z.of_nat j))
    by (apply total_iff; exists j; split; [exact Hj | reflexivity]).
  split; [|split; [|split]].
  - unfold Hand.get_score, bind, get, lift. now rewrite Hs.
  - intros (t & Ht & Hle). apply total_iff in Ht as (i & Hi & ->).
    assert (Hsle : low_total (Hand.__cards h) + 10 * Z.of_nat j <= 21).
    { destruct Hfit as [Hfit| ->]; [exact Hfit | lia]. }
    split; [exact Htot | split; [exact Hsle|]].
    intros t Ht Ht21. apply total_iff in Ht as (i' & Hi' & ->).
    destruct (Nat.le_gt_cases i' j) as [Hij|Hij]; [lia|].
    specialize (Hmax i' (conj Hij Hi')). lia.
  - intros Hall.
    assert (j = O) as ->.
    { destruct Hfit as [Hfit|Hfit]; [|exact Hfit].
      specialize (Hall _ Htot). lia. }
    split; [lia | split; [exact Htot|]].
    intros t Ht. apply total_iff in Ht as (i & Hi & ->). lia.
  - intros Hnil. rewrite Hnil in *. cbn in Hj. cbn. lia.
Qed.

(** * The deck *)

Section DeckFacts.

Lemma card_init_ok (r : Rank) (s : Suit) :
  Card.init (Card.rank_str r) (Card.suit_str s) = Ok (Card.mk r s).
Proof. destruct r, s; reflexivity. Qed.

(** A loop whose body only appends to the list appends what each round
    appends, round after round. *)
Lemma for_appends {X} (l : list X) (body : X -> M (list Card.t) unit)
    (g : X -> list Card.t) :
  (forall x cards, In x l -> body x cards = (Ok tt, cards ++ g x)) ->
  forall cards, for_ l body cards = (Ok tt, cards ++ flat_map g l).
Proof.
  induction l as [|x l IH]; intros Hbody cards.
  - cbn. now rewrite app_nil_r.
  - cbn [for_ flat_map]. unfold bind.
    rewrite Hbody by (now left).
    rewrite IH by (intros; apply Hbody; now right).
    now rewrite app_assoc.
Qed.

Lemma for_map {S X Y} (f : X -> Y) (l : list X) (body : Y -> M S unit) :
  for_ (map f l) body = for_ l (fun x => body (f x)).
Proof.
  induction l as [|x l IH]; [reflexivity|].
  cbn [map for_]. now rewrite IH.
Qed.

Lemma flat_map_singleton {X Y} (f : X -> Y) (l : list X) :
  flat_map (fun x => [f x]) l = map f l.
Proof. induction l as [|x l IH]; [reflexivity|]. cbn. now rewrite IH. Qed.

(** The two inner loops of [__init__] append one pack. *)
Lemma fill_one_pack (cards : list Card.t) :
  for_ Card.SUITS (fun suit =>
    for_ Card.RANKS (fun rank =>
      bind (lift (Card.init rank suit))
           (fun card => modify (fun cards => cards ++ [card])))) cards
  = (Ok tt, cards ++ one_pack).
Proof.
  unfold Card.SUITS, Card.RANKS, one_pack. rewrite for_map.
  apply for_appends. intros s cs _.
  rewrite for_map.
  rewrite <- (flat_map_singleton (fun r => Card.mk r s)).
  apply for_appends. intros r cs' _.
  unfold bind, lift, modify. now rewrite card_init_ok.
Qed.

Lemma fill_packs (number_of_decks : Z) :
  Deck.fill number_of_decks []
  = (Ok tt, flat_map (fun _ => one_pack) (py_range number_of_decks)).
Proof.
  unfold Deck.fill.
  rewrite (for_appends _ _ (fun _ => one_pack)); [reflexivity|].
  intros _ cards _. apply fill_one_pack.
Qed.

Lemma length_py_range (n : Z) : length (py_range n) = Z.to_nat n.
Proof. unfold py_range. now rewrite length_map, length_seq. Qed.

Lemma length_one_pack : length one_pack = 52%nat.
Proof. reflexivity. Qed.

Lemma length_packs {X} (l : list X) :
  length (flat_map (fun _ => one_pack) l) = (52 * length l)%nat.
Proof.
  induction l as [|x l IH]; [reflexivity|].
  cbn [flat_map]. rewrite length_app, IH, length_one_pack. cbn [length]. lia.
Qed.

Lemma one_pack_lookup (i : nat) :
  (i < 52)%nat -> one_pack !! i = Some (pack_order_card i).
Proof.
  intros Hi.
  do 52 (destruct i as [|i]; [reflexivity|]). lia.
Qed.

Lemma pack_order_card_next (i : nat) :
  pack_order_card (52 + i) = pack_order_card i.
Proof.
  unfold pack_order_card.
  replace (52 + i)%nat with (i + 4 * 13)%nat by lia.
  rewrite Nat.Div0.mod_add, Nat.div_add by lia.
  replace (i / 13 + 4)%nat with (i / 13 + 1 * 4)%nat by lia.
  now rewrite Nat.Div0.mod_add.
Qed.

(** Position by position, packs laid end to end are in pack order. *)
Lemma packs_lookup {X} (l : list X) (i : nat) :
  (i < 52 * length l)%nat ->
  flat_map (fun _ => one_pack) l !! i = Some (pack_order_card i).
Proof.
  revert i. induction l as [|x l IH]; intros i Hi; [cbn in Hi; lia|].
  cbn [flat_map].
  destruct (Nat.lt_ge_cases i 52) as [Hlt|Hge].
  - rewrite lookup_app_l by (rewrite length_one_pack; exact Hlt).
    now apply one_pack_lookup.
  - rewrite lookup_app_r by (rewrite length_one_pack; exact Hge).
    rewrite length_one_pack.
    replace i with (52 + (i - 52))%nat at 2 by lia.
    rewrite pack_order_card_next. apply IH. cbn [length] in Hi. lia.
Qed.

(** Drawing as many times as the deck has cards returns them in order and
    empties the deck. *)
Lemma draw_many_all (cards : list Card.t) (o : option (list Card.t)) :
  draw_many (length cards) (Deck.mk cards o) = (Ok cards, Deck.mk [] o).
Proof.
  induction cards as [|c cards IH]; [reflexivity|].
  cbn [length draw_many].
  unfold bind, Deck.draw, get, modify, ret, Deck.set_cards in *.
  cbn in *. now rewrite IH.
Qed.

Lemma draw_empty (o : option (list Card.t)) :
  Deck.draw (Deck.mk [] o)
  = (Raise (ValueError "Taking card from empty deck."), Deck.mk [] o).
Proof. reflexivity. Qed.

Context `{Settings}.

Lemma init_packs (number_of_decks : Z) :
  0 <= number_of_decks <= MAX_DECK_PACKS ->
  Deck.init number_of_decks
  = Ok (Deck.mk (flat_map (fun _ => one_pack) (py_range number_of_decks))
                None).
Proof.
  intros [Hlo Hhi]. unfold Deck.init.
  replace (number_of_decks <? 0) with false by (symmetry; apply Z.ltb_ge; lia).
  replace (number_of_decks >? MAX_DECK_PACKS) with false
    by (symmetry; rewrite Z.gtb_ltb; apply Z.ltb_ge; lia).
  cbn [orb]. now rewrite fill_packs.
Qed.

(** What [pass_cards] builds: the cards it was given sit in the attribute
    [_Deck__Deck_cards], and [_Deck__cards], which [draw] reads, is empty. *)
Lemma pass_cards_object (cards : list Card.t) :
  cards <> [] -> 0 <= MAX_DECK_PACKS ->
  Deck.pass_cards cards = Ok (Deck.mk [] (Some cards)).
Proof.
  intros Hne Hmax. unfold Deck.pass_cards.
  destruct cards as [|c cards]; [contradiction|].
  cbn [length Nat.eqb]. rewrite init_packs by lia. reflexivity.
Qed.

(** So the first [draw] on a deck built by [pass_cards] raises. *)
Lemma pass_cards_draw_fails (cards : list Card.t) :
  cards <> [] -> 0 <= MAX_DECK_PACKS ->
  exists d : Deck.t,
    Deck.pass_cards cards = Ok d /\
    Deck._Deck__Deck_cards d = Some cards /\
    Deck.draw d = (Raise (ValueError "Taking card from empty deck."), d).
Proof.
  intros Hne Hmax. exists (Deck.mk [] (Some cards)).
  split; [now apply pass_cards_object|]. split; reflexivity.
Qed.

End DeckFacts.

(** C6.  For [0 <= N <= MAX_DECK_PACKS] the constructor returns a deck on
    which [52 * N] calls of [draw] in a row succeed, the call number [i]
    (from 0) returning the card of rank [i mod 13] and suit [(i / 13) mod 4]
    in the order of [RANKS] and [SUITS], and on which the next call raises
    "Taking card from empty deck.". *)
Theorem fresh_deck_draws `{Settings} (N : Z) :
  0 <= N <= MAX_DECK_PACKS ->
  exists (d : Deck.t) (cards : list Card.t) (d' : Deck.t),
    Deck.init N = Ok d /\
    draw_many (Z.to_nat (52 * N)) d = (Ok cards, d') /\
    length cards = Z.to_nat (52 * N) /\
    (forall i : nat, (i < Z.to_nat (52 * N))%nat ->
       cards !! i = Some (pack_order_card i)) /\
    Deck.draw d'
    = (Raise (ValueError "Taking card from empty deck."), d').
Proof.
  intros HN.
  set (cards := flat_map (fun _ => one_pack) (py_range N)).
  assert (Hlen : length cards = Z.to_nat (52 * N)).
  { subst cards. rewrite length_packs, length_py_range. lia. }
  exists (Deck.mk cards None), cards, (Deck.mk [] None).
  split; [now apply init_packs|].
  split; [rewrite <- Hlen; apply draw_many_all|].
  split; [exact Hlen|].
  split; [|apply draw_empty].
  intros i Hi. subst cards. apply packs_lookup.
  rewrite length_py_range. lia.
Qed.

Lemma fresh_deck_draws_witness :
  exists (d : Deck.t) (cards : list Card.t) (d' : Deck.t),
    @Deck.init Example.settings 2 = Ok d /\
    draw_many (Z.to_nat (52 * 2)) d = (Ok cards, d') /\
    length cards = Z.to_nat (52 * 2) /\
    (forall i : nat, (i < Z.to_nat (52 * 2))%nat ->
       cards !! i = Some (pack_order_card i)) /\
    Deck.draw d'
    = (Raise (ValueError "Taking card from empty deck."), d').
Proof.
  apply (@fresh_deck_draws Example.settings 2). cbn. lia.
Defined.

(** C5.  On a non-empty list [pass_cards] returns a deck, and the first
    [draw] on that deck raises "Taking card from empty deck.": the cards went
    to [_Deck__Deck_cards], not to the list [draw] takes from.  On the empty
    list [pass_cards] raises "Deck cannot be empty.". *)
Theorem pass_cards_then_draw :
  (exists d : Deck.t,
     @Deck.pass_cards Example.settings
       [Example.card Ace Spades; Example.card King Hearts] = Ok d /\
     Deck.draw d = (Raise (ValueError "Taking card from empty deck."), d)) /\
  @Deck.pass_cards Example.settings [] = Raise (ValueError "Deck cannot be empty.").
Proof.
  split; [|reflexivity].
  eexists. split; [reflexivity|]. reflexivity.
Qed.

(** * The object store *)

Section StoreFacts.
Context {H : Type}.

Lemma world_eta (w : World H) : mkWorld (self w) (heap w) (deck w) = w.
Proof. now destruct w. Qed.

(** A method call on a hand that is in the heap. *)
Lemma on_hand_at {A} (r : ref) (m : M Hand.t A) (w : World H) (h : Hand.t) :
  heap w !! r = Some h ->
  on_hand r m w
  = (fst (m h), mkWorld (self w) (<[r := snd (m h)]> (heap w)) (deck w)).
Proof.
  intros Hr. unfold on_hand. rewrite Hr. now destruct (m h).
Qed.

(** A method that reads the hand leaves the world as it is. *)
Lemma on_hand_gets {A} (r : ref) (f : Hand.t -> A) (w : World H) :
  snd (on_hand r (gets f) w) = w.
Proof.
  unfold on_hand. destruct (heap w !! r) as [h|] eqn:Hr; [|reflexivity].
  cbn. rewrite list_insert_id by exact Hr. apply world_eta.
Qed.

Lemma on_hand_read {A} (r : ref) (f : Hand.t -> A) (w : World H) (h : Hand.t) :
  heap w !! r = Some h -> on_hand r (gets f) w = (Ok (f h), w).
Proof.
  intros Hr. rewrite (on_hand_at _ _ _ _ Hr). cbn.
  rewrite list_insert_id by exact Hr. now rewrite world_eta.
Qed.

Lemma on_deck_draw (w : World H) (c : Card.t) (rest : list Card.t) :
  Deck._Deck__cards (deck w) = c :: rest ->
  on_deck Deck.draw w
  = (Ok c, mkWorld (self w) (heap w) (Deck.set_cards rest (deck w))).
Proof.
  intros Hd. unfold on_deck, Deck.draw, bind, get, modify, ret.
  now rewrite Hd.
Qed.

Lemma on_deck_draw_empty (w : World H) :
  Deck._Deck__cards (deck w) = [] ->
  on_deck Deck.draw w
  = (Raise (ValueError "Taking card from empty deck."), w).
Proof.
  intros Hd. unfold on_deck, Deck.draw, bind, get, raise.
  rewrite Hd. now rewrite world_eta.
Qed.

(** The same steps on a world written out. *)
Lemma on_self_modify_mk (f : H -> H) (s : H) (hp : list Hand.t) (d : Deck.t) :
  on_self (modify f) (mkWorld s hp d) = (Ok tt, mkWorld (f s) hp d).
Proof. reflexivity. Qed.

Lemma on_self_gets_mk {A} (f : H -> A) (s : H) (hp : list Hand.t) (d : Deck.t) :
  on_self (gets f) (mkWorld s hp d) = (Ok (f s), mkWorld s hp d).
Proof. reflexivity. Qed.

Lemma on_hand_mk {A} (r : ref) (m : M Hand.t A) (h : Hand.t)
    (s : H) (hp : list Hand.t) (d : Deck.t) :
  hp !! r = Some h ->
  on_hand r m (mkWorld s hp d)
  = (fst (m h), mkWorld s (<[r := snd (m h)]> hp) d).
Proof. intros Hr. now apply (on_hand_at r m (mkWorld s hp d)). Qed.

Lemma on_hand_read_mk {A} (r : ref) (f : Hand.t -> A) (h : Hand.t)
    (s : H) (hp : list Hand.t) (d : Deck.t) :
  hp !! r = Some h ->
  on_hand r (gets f) (mkWorld s hp d) = (Ok (f h), mkWorld s hp d).
Proof. intros Hr. now apply (on_hand_read r f (mkWorld s hp d)). Qed.

Lemma new_hand_mk (h : Hand.t) (s : H) (hp : list Hand.t) (d : Deck.t) :
  new_hand h (mkWorld s hp d) = (Ok (length hp), mkWorld s (hp ++ [h]) d).
Proof. reflexivity. Qed.

End StoreFacts.

Lemma run_bind {S A B} (m : M S A) (k : A -> M S B) (s : S) :
  bind m k s
  = match m s with
    | (Ok a, s') => k a s'
    | (Raise e, s') => (Raise e, s')
    end.
Proof. reflexivity. Qed.

(** * hit *)

Section HitFacts.
Context {H : Type} `{HasHands.ops H}.

(** [hit] on a hand of the heap, with a card left in the deck. *)
Lemma hit_at (w : World H) (r : ref) (h : Hand.t)
    (c : Card.t) (rest : list Card.t) :
  heap w !! r = Some h ->
  Deck._Deck__cards (deck w) = c :: rest ->
  HasHands.hit (Some r) w
  = (Ok tt, mkWorld (self w) (<[r := after_hit c h]> (heap w))
                    (Deck.set_cards rest (deck w))).
Proof.
  intros Hr Hd. destruct w as [s hp d]. cbn [heap deck self] in *.
  assert (Hlt : (r < length hp)%nat) by (eapply lookup_lt_Some; exact Hr).
  set (h1 := Hand.set_cards (Hand.__cards h ++ [c]) h).
  assert (Hr1 : <[r := h1]> hp !! r = Some h1)
    by now apply list_lookup_insert_eq.
  unfold HasHands.hit, HasHands.default_hand, call.
  rewrite run_bind. unfold ret at 1.
  rewrite run_bind, (on_deck_draw _ c rest) by exact Hd.
  cbn [deck self heap].
  rewrite run_bind, (on_hand_at r _ _ h) by exact Hr.
  unfold Hand.add_card at 1, modify at 1. cbn [fst snd self heap deck].
  fold h1.
  rewrite run_bind, (on_hand_at r _ _ h1) by exact Hr1.
  rewrite is_bust_value. cbn [fst snd self heap deck].
  rewrite list_insert_insert_eq.
  unfold after_hit. fold h1.
  destruct (score_value (Hand.__cards h1) >? 21) eqn:Hbust; cbn [orb].
  - rewrite run_bind. unfold ret at 1.
    rewrite (on_hand_at r _ _ h1) by exact Hr1.
    unfold Hand.deactivate, modify. cbn [fst snd self heap deck].
    now rewrite list_insert_insert_eq.
  - rewrite run_bind, run_bind.
    unfold Hand.get_cards. rewrite (on_hand_read r _ _ h1) by exact Hr1.
    unfold ret at 1.
    destruct (length (Hand.__cards h1) =? 5)%nat eqn:Hfive.
    + rewrite (on_hand_at r _ _ h1) by exact Hr1.
      unfold Hand.deactivate, modify. cbn [fst snd self heap deck].
      now rewrite list_insert_insert_eq.
    + reflexivity.
Qed.

(** [hit] with no card left in the deck. *)
Lemma hit_empty_deck (w : World H) (hand x : option ref) :
  HasHands.default_hand hand w = (Ok x, w) ->
  Deck._Deck__cards (deck w) = [] ->
  HasHands.hit hand w
  = (Raise (ValueError "Taking card from empty deck."), w).
Proof.
  intros Hh Hd. unfold HasHands.hit.
  rewrite run_bind, Hh, run_bind, on_deck_draw_empty by exact Hd.
  reflexivity.
Qed.

Lemma hit_default (w : World H) (hand : option ref) (r : ref) :
  HasHands.default_hand hand w = (Ok (Some r), w) ->
  HasHands.hit hand w = HasHands.hit (Some r) w.
Proof.
  intros Hh. unfold HasHands.hit.
  rewrite run_bind, Hh. symmetry. now rewrite run_bind.
Qed.

Lemma hit_mk (s : H) (hp : list Hand.t) (d : Deck.t) (r : ref) (h : Hand.t)
    (c : Card.t) (rest : list Card.t) :
  hp !! r = Some h ->
  Deck._Deck__cards d = c :: rest ->
  HasHands.hit (Some r) (mkWorld s hp d)
  = (Ok tt, mkWorld s (<[r := after_hit c h]> hp) (Deck.set_cards rest d)).
Proof. intros Hr Hd. now apply (hit_at (mkWorld s hp d)). Qed.

End HitFacts.

(** C8.  Let [hand] stand for an active hand object [h] at [r].
    - With a card [c] on top of the deck, [hit] returns, the deck has lost
      [c], and the hand has the same cards followed by [c] and the same bet;
      it is inactive exactly when it is bust or holds 5 cards, so that a hand
      of 4 cards is inactive after the hit whatever its score.
    - With an empty deck, [hit] raises "Taking card from empty deck." and
      nothing has changed. *)
Theorem hit_draws_and_deactivates {H : Type} `{HasHands.ops H}
    (w : World H) (hand : option ref) (r : ref) (h : Hand.t) :
  hand_of w hand r h ->
  Hand.__is_active h = true ->
  (forall (c : Card.t) (rest : list Card.t),
     Deck._Deck__cards (deck w) = c :: rest ->
     exists h' : Hand.t,
       HasHands.hit hand w
       = (Ok tt, mkWorld (self w) (<[r := h']> (heap w))
                         (Deck.set_cards rest (deck w))) /\
       Hand.__cards h' = Hand.__cards h ++ [c] /\
       Hand.__bet h' = Hand.__bet h /\
       (Hand.__is_active h' = false <->
          Hand.is_bust h' = (Ok true, h') \/
          length (Hand.__cards h') = 5%nat) /\
       (length (Hand.__cards h) = 4%nat -> Hand.__is_active h' = false)) /\
  (Deck._Deck__cards (deck w) = [] ->
   HasHands.hit hand w
   = (Raise (ValueError "Taking card from empty deck."), w)).
Proof.
  intros [Hdef Hr] Hact. split.
  - intros c rest Hd. exists (after_hit c h).
    rewrite (hit_default _ _ _ Hdef).
    split; [now apply hit_at|].
    unfold after_hit.
    set (h1 := Hand.set_cards (Hand.__cards h ++ [c]) h).
    assert (Hcards : Hand.__cards h1 = Hand.__cards h ++ [c]) by reflexivity.
    destruct (score_value (Hand.__cards h1) >? 21) eqn:Hbust;
      [|destruct (length (Hand.__cards h1) =? 5)%nat eqn:Hfive]; cbn [orb].
    + split; [reflexivity|]. split; [reflexivity|]. split; [split|].
      * intros _. left. rewrite is_bust_value.
        cbn [Hand.__cards Hand.set_is_active]. now rewrite Hbust.
      * intros _. reflexivity.
      * intros _. reflexivity.
    + apply Nat.eqb_eq in Hfive.
      split; [reflexivity|]. split; [reflexivity|]. split; [split|].
      * intros _. right. exact Hfive.
      * intros _. reflexivity.
      * intros _. reflexivity.
    + apply Nat.eqb_neq in Hfive.
      split; [reflexivity|]. split; [reflexivity|]. split; [split|].
      * cbn. rewrite Hact. discriminate.
      * intros [Hb|Hl].
        -- rewrite is_bust_value, Hbust in Hb. discriminate.
        -- contradiction.
      * intros H4. exfalso. apply Hfive.
        rewrite Hcards, length_app, H4. reflexivity.
  - intros Hd. now apply (hit_empty_deck w hand (Some r)).
Qed.

Lemma hit_draws_and_deactivates_witness :
  exists h' : Hand.t,
    HasHands.hit None Example.dealer_four_cards
    = (Ok tt,
       mkWorld (Dealer.mk (Some 0%nat)) [h']
               (Deck.mk [Example.card Three Clubs] None)) /\
    Hand.__cards h'
    = [Example.card Two Spades; Example.card Three Hearts;
       Example.card Four Spades; Example.card Two Hearts;
       Example.card Two Clubs] /\
    Hand.__is_active h' = false.
Proof.
  destruct (hit_draws_and_deactivates Example.dealer_four_cards None 0%nat
              (Hand.mk [Example.card Two Spades; Example.card Three Hearts;
                        Example.card Four Spades; Example.card Two Hearts]
                       None true))
    as [Hdraw _].
  - split; reflexivity.
  - reflexivity.
  - destruct (Hdraw (Example.card Two Clubs) [Example.card Three Clubs] eq_refl)
      as (h' & Hhit & Hcards & _ & _ & H4).
    exists h'. split; [exact Hhit|]. split; [exact Hcards|].
    apply H4. reflexivity.
Defined.

(** * The player *)

Section HeapFacts.

(** The heap after a split: the hand at [r] rewritten, one hand appended. *)
Lemma heap_lookup_old (hp : list Hand.t) (r : ref) (x y : Hand.t) :
  (r < length hp)%nat -> ((<[r := x]> hp) ++ [y]) !! r = Some x.
Proof.
  intros Hr. rewrite lookup_app_l by (now rewrite length_insert).
  now apply list_lookup_insert_eq.
Qed.

Lemma heap_lookup_new (hp : list Hand.t) (r : ref) (x y : Hand.t) :
  ((<[r := x]> hp) ++ [y]) !! length hp = Some y.
Proof. apply list_lookup_middle. now rewrite length_insert. Qed.

Lemma heap_insert_old (hp : list Hand.t) (r : ref) (x x' y : Hand.t) :
  (r < length hp)%nat ->
  <[r := x']> ((<[r := x]> hp) ++ [y]) = <[r := x']> hp ++ [y].
Proof.
  intros Hr. rewrite insert_app_l by (now rewrite length_insert).
  now rewrite list_insert_insert_eq.
Qed.

Lemma heap_insert_new (hp : list Hand.t) (r : ref) (x y y' : Hand.t) :
  <[length hp := y']> ((<[r := x]> hp) ++ [y]) = <[r := x]> hp ++ [y'].
Proof.
  rewrite insert_app_r_alt by (now rewrite length_insert).
  rewrite length_insert, Nat.sub_diag. reflexivity.
Qed.

Lemma two_cards_not_bust (c d : Card.t) : (score_value [c; d] >? 21) = false.
Proof. destruct c as [[] s1], d as [[] s2]; reflexivity. Qed.

Lemma pop_card_two (c1 c2 : Card.t) (bet : option Z) (act : bool) :
  Hand.pop_card (Hand.mk [c1; c2] bet act) = (Ok c2, Hand.mk [c1] bet act).
Proof. reflexivity. Qed.

Lemma set_bet_ok `{Settings} (b : Z) (h : Hand.t) :
  MINIMUM_BET <= b ->
  Hand.set_bet b h = (Ok tt, Hand.set_bet_field (Some b) h).
Proof.
  intros Hb. unfold Hand.set_bet.
  replace (b <? MINIMUM_BET) with false by (symmetry; apply Z.ltb_ge; lia).
  reflexivity.
Qed.

(** A hand of one card that is hit holds two cards and stays as active as
    it was. *)
Lemma after_hit_one (c d : Card.t) (bet : option Z) (act : bool) :
  after_hit d (Hand.mk [c] bet act) = Hand.mk [c; d] bet act.
Proof.
  unfold after_hit. cbn [Hand.set_cards Hand.__cards Hand.__bet
                         Hand.__is_active app length Nat.eqb].
  now rewrite two_cards_not_bust.
Qed.

End HeapFacts.

Section PlayerFacts.

Lemma on_hand_gets_cases {H A} (r : ref) (f : Hand.t -> A) (w : World H) :
  on_hand r (gets f) w
  = match heap w !! r with
    | Some h => (Ok (f h), w)
    | None => (Raise Dangling, w)
    end.
Proof.
  destruct (heap w !! r) as [h|] eqn:Hr.
  - now apply on_hand_read.
  - unfold on_hand. now rewrite Hr.
Qed.

(** [get_hand] reads and changes nothing. *)
Lemma first_active_reads (hands : list ref) (w : World Player.t) :
  snd (Player.first_active hands w) = w.
Proof.
  induction hands as [|r hands IH]; [reflexivity|].
  cbn [Player.first_active]. rewrite run_bind.
  unfold Hand.is_active. rewrite on_hand_gets_cases.
  destruct (heap w !! r) as [h|]; [|reflexivity].
  destruct (Hand.__is_active h); [reflexivity | exact IH].
Qed.

Lemma on_self_gets {H A} (f : H -> A) (w : World H) :
  on_self (gets f) w = (Ok (f (self w)), w).
Proof. unfold on_self, gets. now rewrite world_eta. Qed.

Lemma get_hand_reads (w : World Player.t) : snd (Player.get_hand w) = w.
Proof.
  unfold Player.get_hand. rewrite run_bind, on_self_gets.
  apply first_active_reads.
Qed.

Lemma default_hand_reads (hand : option ref) (w : World Player.t) :
  snd (HasHands.default_hand hand w) = w.
Proof. destruct hand; [reflexivity | apply get_hand_reads]. Qed.

Context `{Settings}.

Lemma split_at (w : World Player.t) (hand : option ref) (r : ref)
    (h : Hand.t) (c1 c2 d1 d2 : Card.t) (rest : list Card.t) (b : Z) :
  hand_of w hand r h ->
  Hand.__cards h = [c1; c2] ->
  Hand.__bet h = Some b ->
  MINIMUM_BET <= b ->
  Deck._Deck__cards (deck w) = d1 :: d2 :: rest ->
  Player.split hand w
  = (Ok tt,
     mkWorld
       (Player.mk (Player.__name (self w))
                  (Player.__purse (self w) - b)
                  (Player.__hands (self w) ++ [length (heap w)])
                  (Player.__split_count (self w) + 1))
       ((<[r := Hand.mk [c1; d1] (Some b) (Hand.__is_active h)]> (heap w))
          ++ [Hand.mk [c2; d2] (Some b) true])
       (Deck.set_cards rest (deck w))).
Proof.
  intros [Hdef Hr] Hcards Hbet Hmin Hd.
  assert (Hlt : (r < length (heap w))%nat) by (eapply lookup_lt_Some; exact Hr).
  unfold Player.split. rewrite run_bind, Hdef.
  destruct w as [[name purse hands sc] hp d]. cbn [self heap deck] in *.
  destruct h as [cs bet act]. cbn [Hand.__cards Hand.__bet Hand.__is_active] in *.
  subst cs bet.
  cbn [Player.__name Player.__purse Player.__hands Player.__split_count].
  rewrite run_bind, on_self_modify_mk. cbv beta iota.
  rewrite run_bind. unfold Player.debit.
  rewrite run_bind, on_self_gets_mk. cbv beta iota.
  unfold call, Hand.get_bet.
  rewrite run_bind, (on_hand_read_mk r _ _ _ _ _ Hr). cbv beta iota.
  cbn [Hand.__bet Player.set_split_count Player.set_purse
       Player.__name Player.__purse Player.__hands Player.__split_count].
  rewrite on_self_modify_mk. cbv beta iota.
  rewrite run_bind, (on_hand_mk r _ _ _ _ _ Hr), pop_card_two.
  cbn [fst snd]. cbv beta iota.
  rewrite run_bind, new_hand_mk, length_insert. cbv beta iota.
  cbn [Hand.init].
  rewrite run_bind, (on_hand_read_mk r _ _ _ _ _ (heap_lookup_old _ _ _ _ Hlt)).
  cbv beta iota. cbn [Hand.__bet].
  rewrite run_bind, (on_hand_mk _ _ _ _ _ _ (heap_lookup_new _ _ _ _)).
  rewrite set_bet_ok by exact Hmin.
  cbn [fst snd Hand.set_bet_field Hand.__cards Hand.__is_active].
  cbv beta iota. rewrite heap_insert_new.
  rewrite run_bind.
  rewrite (hit_mk _ _ _ _ _ d1 (d2 :: rest) (heap_lookup_old _ _ _ _ Hlt) Hd).
  cbv beta iota. rewrite heap_insert_old by exact Hlt.
  rewrite run_bind.
  rewrite (hit_mk _ _ (Deck.set_cards (d2 :: rest) d) _ _ d2 rest
             (heap_lookup_new _ _ _ _) eq_refl).
  cbv beta iota. rewrite heap_insert_new.
  unfold Player.give_hand. rewrite on_self_modify_mk.
  unfold Hand.set_bet_field. cbn [Hand.__cards Hand.__bet Hand.__is_active].
  rewrite !after_hit_one. reflexivity.
Qed.

End PlayerFacts.

(** C7.  Let [hand] stand for a hand object [h] at [r] that holds a pair
    [c1], [c2] and a bet [b] that [set_bet] accepts, let the purse hold at
    least [b], let the split count be below [MAX_SPLITS], and let the deck
    start with [d1], [d2].  Then [split] returns; the hand at [r] holds [c1]
    and [d1], the hand appended to the player's hands holds [c2] and [d2],
    both have the bet [b]; the purse is down by [b] and the split count up by
    one. *)
Theorem split_succeeds `{Settings} (w : World Player.t) (hand : option ref)
    (r : ref) (h : Hand.t) (c1 c2 d1 d2 : Card.t) (rest : list Card.t) (b : Z) :
  hand_of w hand r h ->
  Hand.__cards h = [c1; c2] ->
  Card.rank c1 = Card.rank c2 ->
  Hand.__bet h = Some b ->
  MINIMUM_BET <= b ->
  b <= Player.__purse (self w) ->
  Player.__split_count (self w) < MAX_SPLITS ->
  Deck._Deck__cards (deck w) = d1 :: d2 :: rest ->
  exists (w' : World Player.t) (h1 h2 : Hand.t),
    Player.split hand w = (Ok tt, w') /\
    heap w' !! r = Some h1 /\
    Player.__hands (self w') = Player.__hands (self w) ++ [length (heap w)] /\
    heap w' !! length (heap w) = Some h2 /\
    Hand.__cards h1 = [c1; d1] /\ Hand.__cards h2 = [c2; d2] /\
    length (Hand.__cards h1) = 2%nat /\ length (Hand.__cards h2) = 2%nat /\
    Hand.__bet h1 = Some b /\ Hand.__bet h2 = Some b /\
    Player.__purse (self w') = Player.__purse (self w) - b /\
    Player.__split_count (self w') = Player.__split_count (self w) + 1.
Proof.
  intros Hhand Hcards _ Hbet Hmin _ _ Hd.
  assert (Hlt : (r < length (heap w))%nat)
    by (eapply lookup_lt_Some; apply Hhand).
  eexists _, (Hand.mk [c1; d1] (Some b) (Hand.__is_active h)),
          (Hand.mk [c2; d2] (Some b) true).
  split; [eapply split_at; eassumption|].
  cbn [self heap deck Player.__hands Player.__purse Player.__split_count
       Hand.__cards Hand.__bet length].
  split; [now apply heap_lookup_old|].
  split; [reflexivity|].
  split; [apply heap_lookup_new|].
  repeat split; reflexivity.
Qed.

Lemma split_succeeds_witness :
  exists (w' : World Player.t) (h1 h2 : Hand.t),
    @Player.split Example.settings None Example.pair_of_eights = (Ok tt, w') /\
    heap w' !! 0%nat = Some h1 /\
    heap w' !! 1%nat = Some h2 /\
    Hand.__cards h1 = [Example.card Eight Spades; Example.card Two Clubs] /\
    Hand.__cards h2 = [Example.card Eight Hearts; Example.card Three Clubs] /\
    Hand.__bet h1 = Some 50 /\ Hand.__bet h2 = Some 50 /\
    Player.__purse (self w') = 50 /\
    Player.__split_count (self w') = 1.
Proof.
  destruct (@split_succeeds Example.settings Example.pair_of_eights None 0%nat
              (Hand.mk [Example.card Eight Spades; Example.card Eight Hearts]
                       (Some 50) true)
              (Example.card Eight Spades) (Example.card Eight Hearts)
              (Example.card Two Clubs) (Example.card Three Clubs)
              [Example.card Four Clubs] 50)
    as (w' & h1 & h2 & Hs & Hr & _ & Hn & Hc1 & Hc2 & _ & _ & Hb1 & Hb2 & Hp & Hk);
    try reflexivity; try (cbn; lia).
  - split; reflexivity.
  - exists w', h1, h2. repeat split; assumption.
Defined.

(** C9.  [get_purse] returns [None], whatever the purse, and changes
    nothing. *)
Theorem get_purse_returns_none (w : World Player.t) :
  Player.get_purse w = (Ok None, w).
Proof. reflexivity. Qed.

(** * The dealer's cards *)

Section IndexFacts.

Lemma get_card_by_index_cases (index : Z) (h : Hand.t) :
  Hand.get_card_by_index index h
  = if negb ((index =? 0) || (index =? 1))
    then (Raise (ValueError
                   "get_card_by_index method being used incorrectly."), h)
    else match Hand.__cards h !! Z.to_nat index with
         | None => (Raise IndexError, h)
         | Some card => (Ok card, h)
         end.
Proof.
  unfold Hand.get_card_by_index.
  destruct (negb ((index =? 0) || (index =? 1))); [reflexivity|].
  rewrite run_bind. unfold get.
  now destruct (Hand.__cards h !! Z.to_nat index).
Qed.

Lemma dealer_card (index : Z) (w : World Dealer.t) (r : ref) (h : Hand.t) :
  Dealer.__hand (self w) = Some r ->
  heap w !! r = Some h ->
  (bind (on_self (gets Dealer.__hand))
        (fun hand => call hand (Hand.get_card_by_index index))) w
  = (fst (Hand.get_card_by_index index h), w).
Proof.
  intros Hh Hr. rewrite run_bind, on_self_gets, Hh. unfold call.
  rewrite (on_hand_at r _ _ h) by exact Hr.
  rewrite get_card_by_index_cases.
  assert (Hw : mkWorld (self w) (<[r := h]> (heap w)) (deck w) = w)
    by (rewrite list_insert_id by exact Hr; apply world_eta).
  destruct (negb ((index =? 0) || (index =? 1))); cbn [fst snd];
    [now rewrite Hw|].
  destruct (Hand.__cards h !! Z.to_nat index); cbn [fst snd]; now rewrite Hw.
Qed.

End IndexFacts.

(** C10, as the code has it.  [get_card_by_index] raises its [ValueError]
    exactly when the index is neither 0 nor 1, and for the index 0 or 1 it
    raises [IndexError] when the hand holds no card at that index.  Hence, on
    a dealer whose hand is the object [h]: [upcard] raises [IndexError] when
    [h] holds fewer than 2 cards; [hole_card] raises [IndexError] when [h]
    holds no card, and returns the first card when [h] holds one or more. *)
Theorem card_by_index_failures (w : World Dealer.t) (r : ref) (h : Hand.t) :
  Dealer.__hand (self w) = Some r ->
  heap w !! r = Some h ->
  (forall index : Z,
     fst (Hand.get_card_by_index index h)
     = Raise (ValueError "get_card_by_index method being used incorrectly.")
     <-> index <> 0 /\ index <> 1) /\
  (forall index : Z,
     (index = 0 \/ index = 1) ->
     (length (Hand.__cards h) < Z.to_nat index + 1)%nat ->
     Hand.get_card_by_index index h = (Raise IndexError, h)) /\
  ((length (Hand.__cards h) < 2)%nat ->
   Dealer.upcard w = (Raise IndexError, w)) /\
  (length (Hand.__cards h) = 0%nat ->
   Dealer.hole_card w = (Raise IndexError, w)) /\
  (forall (c : Card.t) (cs : list Card.t),
     Hand.__cards h = c :: cs -> Dealer.hole_card w = (Ok c, w)).
Proof.
  intros Hh Hr.
  split; [|split; [|split; [|split]]].
  - intros index. rewrite get_card_by_index_cases.
    destruct (Z.eqb_spec index 0) as [->|H0]; cbn [orb negb].
    + destruct (Hand.__cards h !! Z.to_nat 0); cbn [fst];
        (split; [discriminate | intros [? _]; congruence]).
    + destruct (Z.eqb_spec index 1) as [->|H1]; cbn [orb negb].
      * destruct (Hand.__cards h !! Z.to_nat 1); cbn [fst];
          (split; [discriminate | intros [_ ?]; congruence]).
      * cbn [fst]. split; [intros _; now split | reflexivity].
  - intros index Hix Hlen. rewrite get_card_by_index_cases.
    replace (negb ((index =? 0) || (index =? 1))) with false
      by (destruct Hix as [-> | ->]; reflexivity).
    rewrite (proj2 (lookup_ge_None _ _)); [reflexivity|]. lia.
  - intros Hlen. unfold Dealer.upcard.
    rewrite (dealer_card 1 w r h Hh Hr), get_card_by_index_cases.
    cbn [Z.eqb orb negb].
    rewrite (proj2 (lookup_ge_None _ _)); [reflexivity|].
    change (Z.to_nat 1) with 1%nat. lia.
  - intros Hlen. unfold Dealer.hole_card.
    rewrite (dealer_card 0 w r h Hh Hr), get_card_by_index_cases.
    cbn [Z.eqb orb negb].
    rewrite (proj2 (lookup_ge_None _ _)); [reflexivity|].
    change (Z.to_nat 0) with 0%nat. lia.
  - intros c cs Hcs. unfold Dealer.hole_card.
    rewrite (dealer_card 0 w r h Hh Hr), get_card_by_index_cases.
    cbn [Z.eqb orb negb]. rewrite Hcs. reflexivity.
Qed.

Lemma card_by_index_failures_witness :
  Dealer.upcard Example.dealer_one_card
  = (Raise IndexError, Example.dealer_one_card) /\
  Dealer.hole_card Example.dealer_one_card
  = (Ok (Example.card King Hearts), Example.dealer_one_card).
Proof.
  destruct (card_by_index_failures Example.dealer_one_card 0%nat
              (Hand.mk [Example.card King Hearts] None true)
              eq_refl eq_refl)
    as (_ & _ & Hup & _ & Hhole).
  split.
  - apply Hup. cbn. lia.
  - apply (Hhole (Example.card King Hearts) []). reflexivity.
Defined.

(** C10, counterexample.  A dealer hand of one card holds fewer than 2 cards,
    and [hole_card] returns that card. *)
Lemma hole_card_on_one_card :
  (length (Hand.__cards (Hand.mk [Example.card King Hearts] None true)) < 2)%nat /\
  heap Example.dealer_one_card !! 0%nat
  = Some (Hand.mk [Example.card King Hearts] None true) /\
  Dealer.hole_card Example.dealer_one_card
  = (Ok (Example.card King Hearts), Example.dealer_one_card).
Proof. split; [cbn; lia | split; reflexivity]. Qed.

(** * What a computation leaves alone, and what it can raise *)

Section Keeps.
Context {X : Type} (f : Player.t -> X).

Lemma keeps_ret {A} (a : A) : keeps f (ret a).
Proof. intros w. reflexivity. Qed.

Lemma keeps_raise {A} (e : exn) : keeps f (@raise _ A e).
Proof. intros w. reflexivity. Qed.

Lemma keeps_bind {A B} (m : M (World Player.t) A)
    (k : A -> M (World Player.t) B) :
  keeps f m -> (forall a, keeps f (k a)) -> keeps f (bind m k).
Proof.
  intros Hm Hk w. rewrite run_bind. specialize (Hm w).
  destruct (m w) as [[a|e] w1]; cbn [snd] in *.
  - now rewrite Hk.
  - exact Hm.
Qed.

Lemma keeps_on_hand {A} (r : ref) (m : M Hand.t A) : keeps f (on_hand r m).
Proof.
  intros w. unfold on_hand.
  destruct (heap w !! r) as [h|]; [|reflexivity]. now destruct (m h).
Qed.

Lemma keeps_call {A} (hand : option ref) (m : M Hand.t A) :
  keeps f (call hand m).
Proof. destruct hand; [apply keeps_on_hand | apply keeps_raise]. Qed.

Lemma keeps_on_deck {A} (m : M Deck.t A) : keeps f (on_deck m).
Proof. intros w. unfold on_deck. now destruct (m (deck w)). Qed.

Lemma keeps_new_hand (h : Hand.t) : keeps f (new_hand h).
Proof. intros w. reflexivity. Qed.

Lemma keeps_on_self_gets {A} (g : Player.t -> A) : keeps f (on_self (gets g)).
Proof. intros w. reflexivity. Qed.

Lemma keeps_on_self_modify (g : Player.t -> Player.t) :
  (forall s, f (g s) = f s) -> keeps f (on_self (modify g)).
Proof. intros Hg w. cbn. apply Hg. Qed.

Lemma keeps_default_hand (hand : option ref) :
  keeps f (HasHands.default_hand hand).
Proof. intros w. now rewrite default_hand_reads. Qed.

Lemma keeps_get_hand : keeps f Player.get_hand.
Proof. intros w. now rewrite get_hand_reads. Qed.

Lemma keeps_void {A} (m : M (World Player.t) A) : keeps f m -> keeps f (void m).
Proof. intros Hm. apply keeps_bind; [exact Hm | intros; apply keeps_ret]. Qed.

End Keeps.

Create HintDb keeps.

#[local] Hint Resolve keeps_ret keeps_raise keeps_on_hand keeps_call
  keeps_on_deck keeps_new_hand keeps_on_self_gets keeps_default_hand
  keeps_get_hand : keeps.

Ltac keeps_steps :=
  repeat first
    [ progress auto with keeps
    | apply keeps_bind; [|intros ?]
    | apply keeps_void
    | apply keeps_on_self_modify; intros ?; reflexivity
    | match goal with
      | |- keeps _ (if ?b then _ else _) => destruct b
      | |- keeps _ (match ?o with Some _ => _ | None => _ end) => destruct o
      end ].

Section KeepsMethods.
Context {X : Type} (f : Player.t -> X).

Lemma keeps_hit (hand : option ref) : keeps f (HasHands.hit hand).
Proof. unfold HasHands.hit. keeps_steps. Qed.

Lemma keeps_stick (hand : option ref) : keeps f (HasHands.stick hand).
Proof. unfold HasHands.stick. keeps_steps. Qed.

Lemma keeps_can_split `{Settings} (hand : option ref) :
  keeps f (Player.can_split hand).
Proof. unfold Player.can_split. keeps_steps. Qed.

Lemma keeps_can_double_down (hand : option ref) :
  keeps f (Player.can_double_down hand).
Proof. unfold Player.can_double_down. keeps_steps. Qed.

Lemma keeps_get_action_choices `{Settings} (hand : option ref) :
  keeps f (Player.get_action_choices hand).
Proof.
  unfold Player.get_action_choices.
  pose proof keeps_can_split. pose proof keeps_can_double_down.
  keeps_steps.
Qed.

Lemma keeps_give_hand (hand : ref) :
  (forall hs s, f (Player.set_hands hs s) = f s) ->
  keeps f (Player.give_hand hand).
Proof. intros Hf. apply keeps_on_self_modify. intros s. apply Hf. Qed.

End KeepsMethods.

Section RaisesOnly.
Context (P : exn -> Prop).

Lemma ro_ret {S A} (a : A) : raises_only P (@ret S A a).
Proof. intros s e. discriminate. Qed.

Lemma ro_raise {S A} (e : exn) : P e -> raises_only P (@raise S A e).
Proof. intros He s e' [= <-]. exact He. Qed.

Lemma ro_gets {S A} (g : S -> A) : raises_only P (gets g).
Proof. intros s e. discriminate. Qed.

Lemma ro_get {S} : raises_only P (@get S).
Proof. intros s e. discriminate. Qed.

Lemma ro_modify {S} (g : S -> S) : raises_only P (modify g).
Proof. intros s e. discriminate. Qed.

Lemma ro_bind {S A B} (m : M S A) (k : A -> M S B) :
  raises_only P m -> (forall a, raises_only P (k a)) ->
  raises_only P (bind m k).
Proof.
  intros Hm Hk s e. rewrite run_bind. specialize (Hm s).
  destruct (m s) as [[a|e'] s1]; cbn [fst] in *.
  - apply Hk.
  - intros [= <-]. now apply Hm.
Qed.

Lemma ro_on_self {H A} (m : M H A) :
  raises_only P m -> raises_only P (@on_self H A m).
Proof.
  intros Hm w e. unfold on_self. specialize (Hm (self w) e).
  now destruct (m (self w)).
Qed.

Lemma ro_on_deck {H A} (m : M Deck.t A) :
  raises_only P m -> raises_only P (@on_deck H A m).
Proof.
  intros Hm w e. unfold on_deck. specialize (Hm (deck w) e).
  now destruct (m (deck w)).
Qed.

Lemma ro_on_hand {H A} (r : ref) (m : M Hand.t A) :
  P Dangling -> raises_only P m -> raises_only P (@on_hand H A r m).
Proof.
  intros Hd Hm w e. unfold on_hand.
  destruct (heap w !! r) as [h|].
  - specialize (Hm h e). now destruct (m h).
  - intros [= <-]. exact Hd.
Qed.

Lemma ro_call {H A} (hand : option ref) (m : M Hand.t A) :
  P Dangling -> P AttributeError -> raises_only P m ->
  raises_only P (@call H A hand m).
Proof.
  intros Hd Ha Hm. destruct hand; [now apply ro_on_hand | now apply ro_raise].
Qed.

Lemma ro_new_hand {H} (h : Hand.t) : raises_only P (@new_hand H h).
Proof. intros w e. discriminate. Qed.

Lemma ro_is_bust : raises_only P Hand.is_bust.
Proof. intros h e. rewrite is_bust_value. discriminate. Qed.

End RaisesOnly.

Ltac ro_steps :=
  repeat first
    [ match goal with
      | Hknown : (forall _ : option ref, raises_only _ _) |- _ => apply Hknown
      end
    | apply ro_ret | apply ro_gets | apply ro_get | apply ro_modify
    | apply ro_new_hand | apply ro_is_bust
    | apply ro_raise; unfold not_cannot_split; discriminate
    | apply ro_bind; [|intros ?]
    | apply ro_on_self | apply ro_on_deck
    | apply ro_on_hand; [unfold not_cannot_split; discriminate|]
    | apply ro_call;
        [unfold not_cannot_split; discriminate
        |unfold not_cannot_split; discriminate|]
    | match goal with
      | |- raises_only _ (if ?b then _ else _) => destruct b
      | |- raises_only _ (match ?o with _ => _ end) => destruct o
      end ].

Section SplitRaises.
Context `{Settings}.

Lemma ro_first_active (hands : list ref) :
  raises_only not_cannot_split (Player.first_active hands).
Proof.
  induction hands as [|r hands IH]; cbn [Player.first_active].
  - ro_steps.
  - unfold Hand.is_active. ro_steps. exact IH.
Qed.

Lemma ro_default_hand (hand : option ref) :
  raises_only not_cannot_split (HasHands.default_hand (H := Player.t) hand).
Proof.
  destruct hand; cbn [HasHands.default_hand]; [ro_steps|].
  change (raises_only not_cannot_split Player.get_hand).
  unfold Player.get_hand. ro_steps. apply ro_first_active.
Qed.

Lemma ro_hit (hand : option ref) :
  raises_only not_cannot_split (HasHands.hit (H := Player.t) hand).
Proof.
  unfold HasHands.hit.
  pose proof ro_default_hand as Hdefault.
  unfold Deck.draw, Hand.add_card, Hand.get_cards, Hand.deactivate.
  ro_steps.
Qed.

(** [Player.split] never raises "Hand cannot be split.". *)
Lemma ro_split (hand : option ref) :
  raises_only not_cannot_split (Player.split hand).
Proof.
  unfold Player.split.
  pose proof ro_default_hand as Hdefault.
  pose proof ro_hit as Hhit.
  unfold Player.debit, Hand.get_bet, Hand.pop_card, Hand.set_bet,
    Player.give_hand.
  ro_steps.
Qed.

End SplitRaises.

(** * Wagers *)

Section Wagers.

(** [self.__purse -= hand.get_bet()] on a hand with a bet. *)
Lemma debit_at (w : World Player.t) (r : ref) (h : Hand.t) (b : Z) :
  heap w !! r = Some h ->
  Hand.__bet h = Some b ->
  Player.debit (Some r) w
  = (Ok tt, mkWorld (Player.set_purse (Player.__purse (self w) - b) (self w))
                    (heap w) (deck w)).
Proof.
  intros Hr Hb. unfold Player.debit, call, Hand.get_bet.
  rewrite run_bind, on_self_gets, run_bind.
  rewrite (on_hand_read r _ w h) by exact Hr.
  rewrite Hb. reflexivity.
Qed.

(** Either the debit raises and the world is as it was, or the hand has a
    bet and the purse is down by it. *)
Lemma debit_cases (w : World Player.t) (hand : option ref) :
  (exists e, Player.debit hand w = (Raise e, w)) \/
  (exists r h b,
     hand = Some r /\ heap w !! r = Some h /\ Hand.__bet h = Some b /\
     Player.debit hand w
     = (Ok tt,
        mkWorld (Player.set_purse (Player.__purse (self w) - b) (self w))
                (heap w) (deck w))).
Proof.
  destruct hand as [r|].
  - destruct (heap w !! r) as [h|] eqn:Hr.
    + destruct (Hand.__bet h) as [b|] eqn:Hb.
      * right. exists r, h, b.
        split; [reflexivity|]. split; [exact Hr|]. split; [exact Hb|].
        now apply (debit_at w r h b).
      * left. exists TypeError. unfold Player.debit, call, Hand.get_bet.
        rewrite run_bind, on_self_gets, run_bind.
        rewrite (on_hand_read r _ w h) by exact Hr.
        now rewrite Hb.
    + left. exists Dangling. unfold Player.debit, call, Hand.get_bet.
      rewrite run_bind, on_self_gets, run_bind, on_hand_gets_cases.
      now rewrite Hr.
  - left. exists AttributeError. unfold Player.debit, call.
    now rewrite run_bind, on_self_gets, run_bind.
Qed.

Lemma default_hand_cases (w : World Player.t) (hand : option ref) :
  exists res, HasHands.default_hand hand w = (res, w).
Proof.
  exists (fst (HasHands.default_hand hand w)).
  rewrite <- (default_hand_reads hand w) at 3.
  now destruct (HasHands.default_hand hand w).
Qed.

Context `{Settings}.

(** The rest of [split] after the debit touches neither the purse nor the
    split count. *)
Lemma split_wallet (w : World Player.t) (hand : option ref) (r : ref)
    (h : Hand.t) (b : Z) :
  hand_of w hand r h ->
  Hand.__bet h = Some b ->
  Player.__split_count (self (snd (Player.split hand w)))
  = Player.__split_count (self w) + 1 /\
  Player.__purse (self (snd (Player.split hand w)))
  = Player.__purse (self w) - b.
Proof.
  intros [Hdef Hr] Hb. unfold Player.split.
  rewrite run_bind, Hdef, run_bind.
  destruct w as [s hp d]. rewrite on_self_modify_mk. cbv beta iota.
  rewrite run_bind, (debit_at _ r h b) by assumption.
  cbv beta iota. cbn [self heap deck].
  match goal with
  | |- context [snd (?m ?W)] =>
      assert (Hsc : keeps Player.__split_count m)
        by (pose proof @keeps_hit as Hhit; unfold Player.give_hand;
            keeps_steps);
      assert (Hp : keeps Player.__purse m)
        by (pose proof @keeps_hit as Hhit; unfold Player.give_hand;
            keeps_steps);
      rewrite (Hsc W), (Hp W)
  end.
  split; reflexivity.
Qed.

Lemma split_purse_cases (w : World Player.t) (hand : option ref) :
  Player.__purse (self (snd (Player.split hand w))) = Player.__purse (self w)
  \/ exists r h b,
       hand_of w hand r h /\ Hand.__bet h = Some b /\
       Player.__purse (self (snd (Player.split hand w)))
       = Player.__purse (self w) - b.
Proof.
  destruct (default_hand_cases w hand) as [[hand'|e] Hdef].
  - destruct hand' as [r|].
    + destruct (heap w !! r) as [h|] eqn:Hr.
      * destruct (Hand.__bet h) as [b|] eqn:Hb.
        -- right. exists r, h, b. split; [now split|]. split; [exact Hb|].
           now apply (split_wallet w hand r h b).
        -- left. unfold Player.split.
           rewrite run_bind, Hdef, run_bind.
           destruct w as [s hp d]. rewrite on_self_modify_mk. cbv beta iota.
           rewrite run_bind.
           unfold Player.debit, call, Hand.get_bet.
           rewrite run_bind, on_self_gets, run_bind.
           rewrite (on_hand_read r _ _ h) by exact Hr.
           rewrite Hb. reflexivity.
      * left. unfold Player.split.
        rewrite run_bind, Hdef, run_bind.
        destruct w as [s hp d]. rewrite on_self_modify_mk. cbv beta iota.
        rewrite run_bind.
        unfold Player.debit, call, Hand.get_bet.
        rewrite run_bind, on_self_gets, run_bind, on_hand_gets_cases.
        cbn [heap] in *. rewrite Hr. reflexivity.
    + left. unfold Player.split.
      rewrite run_bind, Hdef, run_bind.
      destruct w as [s hp d]. rewrite on_self_modify_mk. cbv beta iota.
      rewrite run_bind. unfold Player.debit, call.
      rewrite run_bind, on_self_gets, run_bind. reflexivity.
  - left. unfold Player.split. now rewrite run_bind, Hdef.
Qed.

End Wagers.

Section Eligibility.
Context `{Settings}.

Lemma hand_of_some (w : World Player.t) (hand : option ref) (r : ref)
    (h : Hand.t) :
  hand_of w hand r h -> hand_of w (Some r) r h.
Proof. intros [_ Hr]. split; [reflexivity | exact Hr]. Qed.

(** [can_split] answers [False] for want of money or of splits left. *)
Lemma can_split_false (w : World Player.t) (hand : option ref) (r : ref)
    (h : Hand.t) (b : Z) :
  hand_of w hand r h ->
  Hand.__bet h = Some b ->
  Player.__purse (self w) < b \/ MAX_SPLITS <= Player.__split_count (self w) ->
  Player.can_split hand w = (Ok false, w).
Proof.
  intros [Hdef Hr] Hb Hno. unfold Player.can_split, call, Hand.get_bet.
  rewrite run_bind, Hdef, run_bind, on_self_gets, run_bind.
  rewrite (on_hand_read r _ w h) by exact Hr.
  rewrite Hb, run_bind. unfold ret at 1.
  destruct (Z.ltb_spec (Player.__purse (self w)) b) as [Hlt|Hge];
    [reflexivity|].
  rewrite run_bind, on_self_gets.
  destruct Hno as [Hno|Hno]; [lia|].
  replace (Player.__split_count (self w) >=? MAX_SPLITS) with true
    by (symmetry; rewrite Z.geb_leb; apply Z.leb_le; exact Hno).
  reflexivity.
Qed.

(** With money and splits left, [can_split] goes on to [has_pair], which
    stops at the method [number_of_cards] that [Hand] lacks. *)
Lemma can_split_stops_at_has_pair (w : World Player.t) (hand : option ref)
    (r : ref) (h : Hand.t) (b : Z) :
  hand_of w hand r h ->
  Hand.__bet h = Some b ->
  b <= Player.__purse (self w) ->
  Player.__split_count (self w) < MAX_SPLITS ->
  Player.can_split hand w = (Raise AttributeError, w).
Proof.
  intros [Hdef Hr] Hb Hpurse Hsc. unfold Player.can_split, call, Hand.get_bet.
  rewrite run_bind, Hdef, run_bind, on_self_gets, run_bind.
  rewrite (on_hand_read r _ w h) by exact Hr.
  rewrite Hb, run_bind. unfold ret at 1.
  replace (Player.__purse (self w) <? b) with false
    by (symmetry; apply Z.ltb_ge; exact Hpurse).
  rewrite run_bind, on_self_gets.
  replace (Player.__split_count (self w) >=? MAX_SPLITS) with false
    by (symmetry; rewrite Z.geb_leb; apply Z.leb_gt; exact Hsc).
  rewrite (on_hand_at r _ w h) by exact Hr.
  unfold Hand.has_pair, missing_attribute. rewrite run_bind.
  unfold raise. cbn [fst snd].
  rewrite list_insert_id by exact Hr. now rewrite world_eta.
Qed.

Lemma can_double_down_at (w : World Player.t) (hand : option ref) (r : ref)
    (h : Hand.t) (b : Z) :
  hand_of w hand r h ->
  Hand.__bet h = Some b ->
  Player.can_double_down hand w
  = (Ok ((Player.__purse (self w) >=? b)
         && (length (Hand.__cards h) =? 2)%nat), w).
Proof.
  intros [Hdef Hr] Hb.
  unfold Player.can_double_down, call, Hand.get_bet, Hand.get_cards.
  rewrite run_bind, Hdef, run_bind, on_self_gets, run_bind.
  rewrite (on_hand_read r _ w h) by exact Hr.
  rewrite Hb, run_bind. unfold ret at 1.
  destruct (Player.__purse (self w) >=? b); cbn [andb]; [|reflexivity].
  rewrite run_bind, (on_hand_read r _ w h) by exact Hr. reflexivity.
Qed.

(** Then [get_action_choices] does not offer the split. *)
Lemma choices_without_split (w : World Player.t) (hand : option ref)
    (r : ref) (h : Hand.t) (b : Z) :
  hand_of w hand r h ->
  Hand.__bet h = Some b ->
  Player.__purse (self w) < b \/ MAX_SPLITS <= Player.__split_count (self w) ->
  exists actions,
    Player.get_action_choices hand w = (Ok actions, w) /\
    ~ In HasHands.SPLIT actions.
Proof.
  intros Hhand Hb Hno. pose proof (hand_of_some _ _ _ _ Hhand) as Hsome.
  unfold Player.get_action_choices.
  rewrite run_bind, (proj1 Hhand), run_bind.
  rewrite (can_split_false w (Some r) r h b) by assumption.
  rewrite run_bind, (can_double_down_at w (Some r) r h b) by assumption.
  destruct ((Player.__purse (self w) >=? b)
            && (length (Hand.__cards h) =? 2)%nat);
    eexists; (split; [reflexivity|]); cbn; intros Hin;
    repeat (destruct Hin as [Hin|Hin]; [discriminate|]); exact Hin.
Qed.

Lemma double_bet_at (h : Hand.t) (b : Z) :
  Hand.__bet h = Some b ->
  Hand.double_bet h = (Ok tt, Hand.set_bet_field (Some (b * 2)) h).
Proof.
  intros Hb. unfold Hand.double_bet. rewrite run_bind. unfold get.
  now rewrite Hb.
Qed.

(** [double_down] on a hand with a bet, with a card left in the deck. *)
Lemma double_down_at (w : World Player.t) (hand : option ref) (r : ref)
    (h : Hand.t) (b : Z) (c : Card.t) (rest : list Card.t) :
  hand_of w hand r h ->
  Hand.__bet h = Some b ->
  Deck._Deck__cards (deck w) = c :: rest ->
  Player.double_down hand w
  = (Ok tt,
     mkWorld (Player.set_purse (Player.__purse (self w) - b) (self w))
             (<[r := Hand.mk (Hand.__cards h ++ [c]) (Some (b * 2)) false]>
                (heap w))
             (Deck.set_cards rest (deck w))).
Proof.
  intros [Hdef Hr] Hb Hd.
  assert (Hlt : (r < length (heap w))%nat) by (eapply lookup_lt_Some; exact Hr).
  unfold Player.double_down.
  rewrite run_bind, Hdef, run_bind, (debit_at w r h b) by assumption.
  destruct w as [s hp d]. cbn [self heap deck] in *.
  rewrite run_bind, (hit_mk _ hp d r h c rest) by assumption.
  unfold call.
  rewrite run_bind,
    (on_hand_mk r _ (after_hit c h)) by (now apply list_lookup_insert_eq).
  assert (Hbet : Hand.__bet (after_hit c h) = Some b).
  { unfold after_hit. now destruct (_ || _). }
  rewrite (double_bet_at _ b Hbet). cbn [fst snd].
  rewrite list_insert_insert_eq.
  rewrite (on_hand_mk r _ (Hand.set_bet_field (Some (b * 2)) (after_hit c h)))
    by (now apply list_lookup_insert_eq).
  unfold Hand.deactivate, modify. cbn [fst snd].
  rewrite list_insert_insert_eq.
  do 3 f_equal. unfold after_hit. now destruct (_ || _).
Qed.

Lemma double_down_purse_cases (w : World Player.t) (hand : option ref) :
  Player.__purse (self (snd (Player.double_down hand w)))
  = Player.__purse (self w)
  \/ exists r h b,
       hand_of w hand r h /\ Hand.__bet h = Some b /\
       Player.__purse (self (snd (Player.double_down hand w)))
       = Player.__purse (self w) - b.
Proof.
  assert (Htail : forall hand',
            keeps Player.__purse
              (bind (HasHands.hit hand') (fun _ =>
                 bind (call hand' Hand.double_bet) (fun _ =>
                   call hand' Hand.deactivate)))).
  { intros hand'. pose proof (@keeps_hit _ Player.__purse) as Hhit.
    keeps_steps. }
  unfold Player.double_down.
  destruct (default_hand_cases w hand) as [[hand'|e] Hdef].
  - rewrite run_bind, Hdef, run_bind.
    destruct (debit_cases w hand') as [[e He]|(r & h & b & -> & Hr & Hb & Hdebit)].
    + left. now rewrite He.
    + right. exists r, h, b. split; [now split|]. split; [exact Hb|].
      rewrite Hdebit. cbv beta iota. now rewrite Htail.
  - left. now rewrite run_bind, Hdef.
Qed.

End Eligibility.

(** C1, as the code has it.  Let [hand] stand for a hand object with the bet
    [b], and let the purse be below [b] or the split count have reached
    [MAX_SPLITS].  Then the refusal is the answer of the queries:
    [can_split] returns [False] and [get_action_choices] does not list the
    split, both without changing anything.  [split] itself tests nothing: it
    does not raise "Hand cannot be split.", and when it is over the split
    count is up by one and the purse down by [b]. *)
Theorem split_makes_no_check `{Settings} (w : World Player.t)
    (hand : option ref) (r : ref) (h : Hand.t) (b : Z) :
  hand_of w hand r h ->
  Hand.__bet h = Some b ->
  Player.__purse (self w) < b \/ MAX_SPLITS <= Player.__split_count (self w) ->
  Player.can_split hand w = (Ok false, w) /\
  (exists actions,
     Player.get_action_choices hand w = (Ok actions, w) /\
     ~ In HasHands.SPLIT actions) /\
  fst (Player.split hand w) <> Raise (ValueError "Hand cannot be split.") /\
  Player.__split_count (self (snd (Player.split hand w)))
  = Player.__split_count (self w) + 1 /\
  Player.__purse (self (snd (Player.split hand w)))
  = Player.__purse (self w) - b.
Proof.
  intros Hhand Hb Hno.
  split; [now apply (can_split_false w hand r h b)|].
  split; [now apply (choices_without_split w hand r h b)|].
  split; [|now apply (split_wallet w hand r h b)].
  intros Hraise. now apply (ro_split hand w _ Hraise).
Qed.

Lemma split_makes_no_check_witness :
  @Player.can_split Example.settings None Example.short_of_money
  = (Ok false, Example.short_of_money) /\
  fst (@Player.split Example.settings None Example.short_of_money)
  <> Raise (ValueError "Hand cannot be split.") /\
  Player.__purse
    (self (snd (@Player.split Example.settings None Example.short_of_money)))
  = 10 - 50.
Proof.
  destruct (@split_makes_no_check Example.settings Example.short_of_money
              None 0%nat
              (Hand.mk [Example.card Eight Spades; Example.card Eight Hearts]
                       (Some 50) true) 50)
    as (Hcan & _ & Hraise & _ & Hpurse).
  - split; reflexivity.
  - reflexivity.
  - left. cbn. lia.
  - repeat split; assumption.
Defined.

(** The same run of [split] for every value of the settings under which the
    bet of 50 can have been set. *)
Lemma split_goes_ahead `{Settings} :
  MINIMUM_BET <= 50 ->
  Player.split None Example.short_of_money
  = (Ok tt,
     mkWorld (Player.mk "Ann" (-40) [0%nat; 1%nat] 1)
       [Hand.mk [Example.card Eight Spades; Example.card Two Clubs]
                (Some 50) true;
        Hand.mk [Example.card Eight Hearts; Example.card Three Clubs]
                (Some 50) true]
       (Deck.mk [Example.card Four Clubs] None)).
Proof.
  intros Hmin.
  rewrite (split_at Example.short_of_money None 0%nat
             (Hand.mk [Example.card Eight Spades; Example.card Eight Hearts]
                      (Some 50) true)
             (Example.card Eight Spades) (Example.card Eight Hearts)
             (Example.card Two Clubs) (Example.card Three Clubs)
             [Example.card Four Clubs] 50);
    try reflexivity; [split; reflexivity | exact Hmin].
Qed.

(** C1, counterexample.  The purse holds 10 and the bet of the hand is 50, so
    [can_split] answers [False]; yet [split] returns, and the purse, the
    split count and the hands have changed. *)
Lemma split_not_refused :
  fst (@Player.can_split Example.settings None Example.short_of_money)
  = Ok false /\
  @Player.split Example.settings None Example.short_of_money
  = (Ok tt,
     mkWorld (Player.mk "Ann" (-40) [0%nat; 1%nat] 1)
       [Hand.mk [Example.card Eight Spades; Example.card Two Clubs]
                (Some 50) true;
        Hand.mk [Example.card Eight Hearts; Example.card Three Clubs]
                (Some 50) true]
       (Deck.mk [Example.card Four Clubs] None)).
Proof. split; reflexivity. Qed.

(** C2, as the code has it.  Take any operation of a player whose purse is
    not negative.  If the operation is not [split] or [double_down], the
    purse is afterwards what it was.  If it is, and the purse holds at least
    the bet of the hand it is called on (what [can_split] and
    [can_double_down] test before the call), the purse is not negative
    afterwards. *)
Theorem purse_stays_non_negative `{Settings} (o : player_op)
    (w : World Player.t) :
  0 <= Player.__purse (self w) ->
  (forall hand r h b,
     takes_wager o = Some hand -> hand_of w hand r h ->
     Hand.__bet h = Some b -> b <= Player.__purse (self w)) ->
  0 <= Player.__purse (self (snd (run_op o w))) /\
  (takes_wager o = None ->
   Player.__purse (self (snd (run_op o w))) = Player.__purse (self w)).
Proof.
  intros Hpos Hguard.
  assert (Hsame :
            Player.__purse (self (snd (run_op o w))) = Player.__purse (self w)
            -> 0 <= Player.__purse (self (snd (run_op o w))) /\
               (takes_wager o = None ->
                Player.__purse (self (snd (run_op o w)))
                = Player.__purse (self w))).
  { intros ->. split; [exact Hpos | reflexivity]. }
  destruct o as [hand|hand|hand|hand|hand| |hand|hand|hand| | | | ];
    cbn [run_op takes_wager] in *;
    try (apply Hsame;
         first [ apply (keeps_hit Player.__purse)
               | apply (keeps_stick Player.__purse)
               | apply (keeps_void Player.__purse);
                 first [ apply keeps_can_split
                       | apply keeps_can_double_down
                       | apply keeps_get_action_choices
                       | apply keeps_get_hand
                       | apply keeps_on_self_gets
                       | apply keeps_ret ]
               | apply (keeps_give_hand Player.__purse); reflexivity ]).
  - destruct (split_purse_cases w hand) as [Heq|(r & h & b & Hh & Hb & Heq)];
      rewrite Heq; (split; [|discriminate]); [exact Hpos|].
    specialize (Hguard hand r h b eq_refl Hh Hb). lia.
  - destruct (double_down_purse_cases w hand)
      as [Heq|(r & h & b & Hh & Hb & Heq)];
      rewrite Heq; (split; [|discriminate]); [exact Hpos|].
    specialize (Hguard hand r h b eq_refl Hh Hb). lia.
  - apply Hsame. unfold Player.reset.
    assert (Hk : keeps Player.__purse
                   (bind (on_self (modify (Player.set_hands [])))
                      (fun _ => on_self (modify (Player.set_split_count 0)))))
      by keeps_steps.
    apply Hk.
Qed.

Lemma purse_stays_non_negative_witness :
  0 <= Player.__purse
         (self (snd (@run_op Example.settings (OpSplit None)
                       Example.pair_of_eights))).
Proof.
  apply (@purse_stays_non_negative Example.settings (OpSplit None)
           Example.pair_of_eights).
  - cbn. lia.
  - intros hand r h b [= <-] [Hdef Hr] Hb.
    vm_compute in Hdef. injection Hdef as <-.
    vm_compute in Hr. injection Hr as <-.
    vm_compute in Hb. injection Hb as <-.
    cbn. lia.
Defined.

(** C2, counterexample.  With a purse of 10 and a bet of 50, [split] and
    [double_down] both return and leave a purse of -40. *)
Lemma wager_overdraws_purse :
  0 <= Player.__purse (self Example.short_of_money) /\
  fst (@Player.split Example.settings None Example.short_of_money) = Ok tt /\
  Player.__purse
    (self (snd (@Player.split Example.settings None Example.short_of_money)))
  = -40 /\
  0 <= Player.__purse (self Example.three_cards) /\
  fst (Player.double_down None Example.three_cards) = Ok tt /\
  Player.__purse (self (snd (Player.double_down None Example.three_cards)))
  = -40.
Proof. cbn [self Example.short_of_money Example.three_cards Player.__purse].
  repeat split; try reflexivity; lia. Qed.

(** C3, as the code has it.  Let [hand] stand for a hand object [h] with the
    bet [b] that does not hold exactly 2 cards, or let the purse be below
    [b].  Then [can_double_down] returns [False] and changes nothing.
    [double_down] itself tests nothing: with a card [c] on top of the deck it
    returns, the purse is down by [b], and the hand holds [c] after its
    cards, has the bet [2 * b] and is inactive. *)
Theorem double_down_makes_no_check (w : World Player.t) (hand : option ref)
    (r : ref) (h : Hand.t) (b : Z) :
  hand_of w hand r h ->
  Hand.__bet h = Some b ->
  length (Hand.__cards h) <> 2%nat \/ Player.__purse (self w) < b ->
  Player.can_double_down hand w = (Ok false, w) /\
  (forall (c : Card.t) (rest : list Card.t),
     Deck._Deck__cards (deck w) = c :: rest ->
     Player.double_down hand w
     = (Ok tt,
        mkWorld (Player.set_purse (Player.__purse (self w) - b) (self w))
                (<[r := Hand.mk (Hand.__cards h ++ [c]) (Some (b * 2)) false]>
                   (heap w))
                (Deck.set_cards rest (deck w)))).
Proof.
  intros Hhand Hb Hno. split.
  - rewrite (can_double_down_at w hand r h b) by assumption.
    destruct Hno as [Hlen|Hpurse].
    + apply Nat.eqb_neq in Hlen. rewrite Hlen. now rewrite andb_false_r.
    + replace (Player.__purse (self w) >=? b) with false; [reflexivity|].
      symmetry. rewrite Z.geb_leb. apply Z.leb_gt. exact Hpurse.
  - intros c rest Hd. now apply double_down_at.
Qed.

Lemma double_down_makes_no_check_witness :
  Player.can_double_down None Example.three_cards
  = (Ok false, Example.three_cards) /\
  Player.double_down None Example.three_cards
  = (Ok tt,
     mkWorld (Player.mk "Ann" (10 - 50) [0%nat] 0)
       [Hand.mk [Example.card Two Spades; Example.card Three Hearts;
                 Example.card Four Spades; Example.card Two Clubs]
                (Some (50 * 2)) false]
       (Deck.mk [Example.card Three Clubs] None)).
Proof.
  destruct (double_down_makes_no_check Example.three_cards None 0%nat
              (Hand.mk [Example.card Two Spades; Example.card Three Hearts;
                        Example.card Four Spades] (Some 50) true) 50)
    as (Hcan & Hgo).
  - split; reflexivity.
  - reflexivity.
  - left. cbn. lia.
  - split; [exact Hcan|].
    apply (Hgo (Example.card Two Clubs) [Example.card Three Clubs]).
    reflexivity.
Defined.

(** C3, counterexample.  The hand holds three cards and the purse, 10, is
    below the bet, 50: [double_down] returns, and the purse, the bet and the
    hand have changed. *)
Lemma double_down_not_refused :
  length (Hand.__cards
            (Hand.mk [Example.card Two Spades; Example.card Three Hearts;
                      Example.card Four Spades] (Some 50) true)) = 3%nat /\
  fst (Player.can_double_down None Example.three_cards) = Ok false /\
  Player.double_down None Example.three_cards
  = (Ok tt,
     mkWorld (Player.mk "Ann" (-40) [0%nat] 0)
       [Hand.mk [Example.card Two Spades; Example.card Three Hearts;
                 Example.card Four Spades; Example.card Two Clubs]
                (Some 100) false]
       (Deck.mk [Example.card Three Clubs] None)).
Proof. repeat split; reflexivity. Qed.

(** * More on cards *)

Section CardFacts.

Lemma rank_str_inj (r r' : Rank) :
  Card.rank_str r = Card.rank_str r' -> r = r'.
Proof. destruct r, r'; intros Heq; first [reflexivity | discriminate]. Qed.

Lemma suit_str_inj (s s' : Suit) :
  Card.suit_str s = Card.suit_str s' -> s = s'.
Proof. destruct s, s'; intros Heq; first [reflexivity | discriminate]. Qed.

Lemma find_rank (rank : string) :
  match List.find (fun r => String.eqb (Card.rank_str r) rank) Card.all_ranks with
  | Some r => Card.rank_str r = rank
  | None => ~ In rank Card.RANKS
  end.
Proof.
  destruct (List.find _ Card.all_ranks) as [r|] eqn:Hf.
  - apply find_some in Hf as [_ Hf]. now apply String.eqb_eq.
  - intros Hin. unfold Card.RANKS in Hin. apply in_map_iff in Hin as (r & <- & Hr).
    pose proof (find_none _ _ Hf r Hr) as Hno. cbn beta in Hno.
    now rewrite String.eqb_refl in Hno.
Qed.

Lemma find_suit (suit : string) :
  match List.find (fun s => String.eqb (Card.suit_str s) suit) Card.all_suits with
  | Some s => Card.suit_str s = suit
  | None => ~ In suit Card.SUITS
  end.
Proof.
  destruct (List.find _ Card.all_suits) as [s|] eqn:Hf.
  - apply find_some in Hf as [_ Hf]. now apply String.eqb_eq.
  - intros Hin. unfold Card.SUITS in Hin. apply in_map_iff in Hin as (s & <- & Hs).
    pose proof (find_none _ _ Hf s Hs) as Hno. cbn beta in Hno.
    now rewrite String.eqb_refl in Hno.
Qed.

Lemma rank_in_RANKS (r : Rank) : In (Card.rank_str r) Card.RANKS.
Proof. destruct r; cbn; tauto. Qed.

Lemma suit_in_SUITS (s : Suit) : In (Card.suit_str s) Card.SUITS.
Proof. destruct s; cbn; tauto. Qed.

End CardFacts.

(** X1.  [Card(rank, suit)] returns a card exactly when [rank] is in [RANKS]
    and [suit] in [SUITS], and the accessors of that card give [rank] and
    [suit] back.  A rank outside [RANKS] raises "Invalid rank passed."
    whatever the suit; a rank of [RANKS] with a suit outside [SUITS] raises
    "Invalid suit passed.". *)
Theorem card_init_accepts (rank suit : string) :
  ((exists c, Card.init rank suit = Ok c) <->
   In rank Card.RANKS /\ In suit Card.SUITS) /\
  (forall c, Card.init rank suit = Ok c ->
             Card.get_rank c = rank /\ Card.get_suit c = suit) /\
  (~ In rank Card.RANKS ->
   Card.init rank suit = Raise (ValueError "Invalid rank passed.")) /\
  (In rank Card.RANKS -> ~ In suit Card.SUITS ->
   Card.init rank suit = Raise (ValueError "Invalid suit passed.")).
Proof.
  unfold Card.init.
  pose proof (find_rank rank) as Hr. pose proof (find_suit suit) as Hs.
  destruct (List.find _ Card.all_ranks) as [r|];
    [destruct (List.find _ Card.all_suits) as [s|]|].
  - subst rank suit. repeat split.
    + apply rank_in_RANKS.
    + apply suit_in_SUITS.
    + intros _. now eexists.
    + now injection H as <-.
    + now injection H as <-.
    + intros Hno. exfalso. apply Hno, rank_in_RANKS.
    + intros _ Hno. exfalso. apply Hno, suit_in_SUITS.
  - subst rank. repeat split; try discriminate.
    + destruct H as [c Hc]. discriminate.
    + destruct H as [c Hc]. discriminate.
    + intros [_ Hin]. contradiction.
    + intros Hno. exfalso. apply Hno, rank_in_RANKS.
  - repeat split; try discriminate.
    + destruct H as [c Hc]. discriminate.
    + destruct H as [c Hc]. discriminate.
    + intros [Hin _]. contradiction.
    + intros Hin. contradiction.
Qed.

(** X2.  Two cards with the same display string are the same card. *)
Theorem card_string_inj (c d : Card.t) :
  Card.get_string c = Card.get_string d -> c = d.
Proof.
  destruct c as [r s], d as [r' s']. unfold Card.get_string. cbn [Card.rank Card.suit].
  intros Heq.
  assert (Hr : r = r').
  { destruct r, r'; first [reflexivity | cbn in Heq; discriminate]. }
  subst r'.
  assert (Hs : Card.suit_str s = Card.suit_str s').
  { destruct r; cbn in Heq; congruence. }
  now rewrite (suit_str_inj _ _ Hs).
Qed.

Lemma card_string_inj_witness :
  Example.card Ten Hearts = Example.card Ten Hearts.
Proof.
  apply (card_string_inj (Example.card Ten Hearts) (Example.card Ten Hearts)).
  reflexivity.
Defined.

(** * More on scores *)

Section ScoreFacts.

Lemma low_total_app (hand hand' : list Card.t) :
  low_total (hand ++ hand') = low_total hand + low_total hand'.
Proof.
  induction hand as [|[r s] hand IH]; [reflexivity|].
  cbn [app low_total]. rewrite IH.
  destruct (card_values (Card.rank (Card.mk r s))); lia.
Qed.

Lemma low_total_card (c : Card.t) : 1 <= low_total [c] <= 10.
Proof. destruct c as [[] s]; cbn; lia. Qed.

Lemma aces_le_low_total (hand : list Card.t) :
  Z.of_nat (aces hand) <= low_total hand.
Proof.
  induction hand as [|c hand IH]; [cbn; lia|].
  change (c :: hand) with ([c] ++ hand). rewrite low_total_app.
  pose proof (low_total_card c).
  destruct c as [[] s]; cbn [app aces Card.rank]; lia.
Qed.

(** The score in closed form: one ace counts 11 when that does not go over
    21, and no second ace ever does. *)
Lemma score_value_closed (hand : list Card.t) :
  score_value hand
  = if (0 <? aces hand)%nat && (low_total hand + 10 <=? 21)
    then low_total hand + 10
    else low_total hand.
Proof.
  destruct (score_of_spec hand) as (j & Hj & Hs & Hfit & Hmax).
  unfold score_value. rewrite Hs.
  pose proof (aces_le_low_total hand) as Hlow.
  destruct (Nat.ltb_spec 0 (aces hand)) as [Ha|Ha]; cbn [andb].
  - destruct (Z.leb_spec (low_total hand + 10) 21) as [Hsoft|Hhard].
    + assert (j = 1%nat) as ->; [|lia].
      destruct (Nat.lt_trichotomy j 1) as [Hlt|[Heq|Hgt]]; [|exact Heq|].
      * specialize (Hmax 1%nat). lia.
      * destruct Hfit as [Hfit|Hfit]; lia.
    + assert (j = O) as ->; [|lia].
      destruct Hfit as [Hfit|Hfit]; lia.
  - assert (j = O) as -> by lia. lia.
Qed.

Lemma aces_perm (hand hand' : list Card.t) :
  Permutation hand hand' -> aces hand = aces hand'.
Proof.
  induction 1 as [|c l l' _ IH|c d l|l l' l'' _ IH1 _ IH2].
  - reflexivity.
  - cbn. now rewrite IH.
  - cbn. destruct (Card.rank c), (Card.rank d); reflexivity.
  - congruence.
Qed.

Lemma low_total_perm (hand hand' : list Card.t) :
  Permutation hand hand' -> low_total hand = low_total hand'.
Proof.
  induction 1 as [|c l l' _ IH|c d l|l l' l'' _ IH1 _ IH2].
  - reflexivity.
  - cbn. now rewrite IH.
  - cbn. destruct (card_values (Card.rank c)), (card_values (Card.rank d)); lia.
  - congruence.
Qed.

Lemma low_total_ranks (hand hand' : list Card.t) :
  map Card.rank hand = map Card.rank hand' ->
  low_total hand = low_total hand' /\ aces hand = aces hand'.
Proof.
  revert hand'. induction hand as [|c hand IH]; intros [|c' hand'] Heq;
    try discriminate; [split; reflexivity|].
  cbn [map] in Heq. injection Heq as Hc Hrest.
  destruct (IH hand' Hrest) as [Hl Ha].
  cbn [low_total aces]. rewrite Hc, Hl, Ha. split; reflexivity.
Qed.

End ScoreFacts.

(** X3.  The score in closed form.  Count every ace 1; if the hand has an ace
    and ten more still make 21 or less, the score is that total plus ten,
    otherwise it is that total.  So at most one ace ever counts 11. *)
Theorem score_soft_or_hard (h : Hand.t) :
  Hand.get_score h
  = (Ok (if (0 <? aces (Hand.__cards h))%nat
            && (low_total (Hand.__cards h) + 10 <=? 21)
         then low_total (Hand.__cards h) + 10
         else low_total (Hand.__cards h)), h).
Proof. rewrite get_score_value. now rewrite score_value_closed. Qed.

(** X4.  The score depends neither on the order of the cards nor on their
    suits: two hands whose ranks are the same up to order have the same
    score. *)
Theorem score_order_and_suits (h h' : Hand.t) :
  Permutation (map Card.rank (Hand.__cards h))
              (map Card.rank (Hand.__cards h')) ->
  fst (Hand.get_score h) = fst (Hand.get_score h').
Proof.
  intros Hperm. rewrite !get_score_value. cbn [fst]. f_equal.
  rewrite !score_value_closed.
  set (unsuit := map (fun r => Card.mk r Spades)).
  assert (Hsame : forall cs,
            low_total cs = low_total (unsuit (map Card.rank cs)) /\
            aces cs = aces (unsuit (map Card.rank cs))).
  { intros cs. apply low_total_ranks. subst unsuit.
    rewrite map_map. cbn. now rewrite map_id. }
  destruct (Hsame (Hand.__cards h)) as [-> ->].
  destruct (Hsame (Hand.__cards h')) as [-> ->].
  assert (Hp : Permutation (unsuit (map Card.rank (Hand.__cards h)))
                           (unsuit (map Card.rank (Hand.__cards h'))))
    by (subst unsuit; now apply Permutation_map).
  now rewrite (low_total_perm _ _ Hp), (aces_perm _ _ Hp).
Qed.

Lemma score_order_and_suits_witness :
  fst (Hand.get_score
         (Hand.mk [Example.card Ace Spades; Example.card Nine Hearts;
                   Example.card Ace Clubs] None true))
  = fst (Hand.get_score
           (Hand.mk [Example.card Nine Clubs; Example.card Ace Hearts;
                     Example.card Ace Diamonds] (Some 5) false)).
Proof.
  apply score_order_and_suits. cbn.
  apply perm_trans with [Nine; Ace; Ace]; [apply perm_swap | reflexivity].
Defined.

(** X5.  [is_bust] answers [True] exactly when the cards go over 21 with
    every ace counted 1, and a hand that is bust is still bust after
    [add_card], whatever the card. *)
Theorem bust_is_final (h : Hand.t) :
  Hand.is_bust h = (Ok (low_total (Hand.__cards h) >? 21), h) /\
  (Hand.is_bust h = (Ok true, h) ->
   forall c : Card.t,
     fst (Hand.is_bust (snd (Hand.add_card c h))) = Ok true).
Proof.
  assert (Hb : forall hand, (score_value hand >? 21) = (low_total hand >? 21)).
  { intros hand. rewrite score_value_closed.
    destruct ((0 <? aces hand)%nat && (low_total hand + 10 <=? 21)) eqn:Hsoft;
      [|reflexivity].
    apply andb_true_iff in Hsoft as [_ Hle]. apply Z.leb_le in Hle.
    rewrite !Z.gtb_ltb.
    replace (21 <? low_total hand + 10) with false
      by (symmetry; apply Z.ltb_ge; lia).
    symmetry. apply Z.ltb_ge. lia. }
  split.
  - rewrite is_bust_value. now rewrite Hb.
  - rewrite is_bust_value, Hb. intros [= Hbust] c.
    rewrite is_bust_value, Hb. cbn [fst snd Hand.add_card modify
      Hand.set_cards Hand.__cards]. f_equal.
    rewrite low_total_app. pose proof (low_total_card c).
    rewrite Z.gtb_ltb in *. apply Z.ltb_lt in Hbust. apply Z.ltb_lt. lia.
Qed.

(** X6.  [is_blackjack] answers [True] exactly for an ace with a card that
    counts ten, in either order. *)
Theorem blackjack_is_ace_and_ten (h : Hand.t) :
  exists b : bool,
    Hand.is_blackjack h = (Ok b, h) /\
    (b = true <->
     exists c1 c2,
       Hand.__cards h = [c1; c2] /\
       ((Card.rank c1 = Ace /\ ten_valued c2) \/
        (ten_valued c1 /\ Card.rank c2 = Ace))).
Proof.
  exists ((score_value (Hand.__cards h) =? 21)
          && (length (Hand.__cards h) =? 2)%nat).
  split.
  - unfold Hand.is_blackjack. rewrite run_bind, get_score_value.
    destruct (score_value (Hand.__cards h) =? 21); cbn [negb andb];
      [|reflexivity].
    rewrite run_bind. unfold get.
    now destruct (length (Hand.__cards h) =? 2)%nat.
  - rewrite andb_true_iff, Z.eqb_eq, Nat.eqb_eq. split.
    + intros [Hs Hl].
      destruct (Hand.__cards h) as [|c1 [|c2 [|c3 cs]]]; try discriminate.
      exists c1, c2. split; [reflexivity|].
      destruct c1 as [[] s1], c2 as [[] s2]; vm_compute in Hs;
        try discriminate; unfold ten_valued; cbn; auto.
    + intros (c1 & c2 & -> & Hcase). split; [|reflexivity].
      unfold ten_valued in Hcase.
      destruct c1 as [[] s1], c2 as [[] s2]; cbn in Hcase;
        destruct Hcase as [[? ?]|[? ?]]; try discriminate; reflexivity.
Qed.

(** * More on the deck *)

Section DeckMore.

Lemma count_packs {X} (l : list X) (c : Card.t) :
  count_occ card_eq_dec (flat_map (fun _ => one_pack) l) c = length l.
Proof.
  induction l as [|x l IH]; [reflexivity|].
  cbn [flat_map length]. rewrite count_occ_app, IH. f_equal.
  destruct c as [[] []]; vm_compute; reflexivity.
Qed.

(** [n] draws on a deck that holds at least [n] cards. *)
Lemma draw_many_prefix (n : nat) (cards : list Card.t)
    (o : option (list Card.t)) :
  (n <= length cards)%nat ->
  draw_many n (Deck.mk cards o)
  = (Ok (firstn n cards), Deck.mk (skipn n cards) o).
Proof.
  revert cards. induction n as [|n IH]; intros cards Hn; [reflexivity|].
  destruct cards as [|c cards]; [cbn in Hn; lia|].
  cbn [draw_many firstn skipn].
  rewrite run_bind. unfold Deck.draw at 1. rewrite run_bind. unfold get at 1.
  cbn [Deck._Deck__cards]. rewrite run_bind. unfold modify at 1, ret at 1.
  unfold Deck.set_cards. cbn [Deck._Deck__Deck_cards].
  rewrite run_bind, IH by (cbn in Hn; lia). reflexivity.
Qed.

(** More draws than the deck holds cards. *)
Lemma draw_many_too_many (n : nat) (cards : list Card.t)
    (o : option (list Card.t)) :
  (length cards < n)%nat ->
  draw_many n (Deck.mk cards o)
  = (Raise (ValueError "Taking card from empty deck."), Deck.mk [] o).
Proof.
  revert cards. induction n as [|n IH]; intros cards Hn; [lia|].
  destruct cards as [|c cards].
  - reflexivity.
  - cbn [draw_many].
    rewrite run_bind. unfold Deck.draw at 1. rewrite run_bind. unfold get at 1.
    cbn [Deck._Deck__cards]. rewrite run_bind. unfold modify at 1, ret at 1.
    unfold Deck.set_cards. cbn [Deck._Deck__Deck_cards].
    rewrite run_bind, IH by (cbn in Hn; lia). reflexivity.
Qed.

End DeckMore.

(** X7.  [Deck(number_of_decks)] returns a deck exactly when
    [0 <= number_of_decks <= MAX_DECK_PACKS]; otherwise it raises "Invalid
    number of decks passed.".  The deck it returns holds
    [52 * number_of_decks] cards, each of the 52 cards [number_of_decks]
    times (so a deck of one pack has no card twice). *)
Theorem deck_init_packs `{Settings} (N : Z) :
  (0 <= N <= MAX_DECK_PACKS ->
   exists d, Deck.init N = Ok d /\
     length (Deck._Deck__cards d) = Z.to_nat (52 * N) /\
     forall c : Card.t,
       count_occ card_eq_dec (Deck._Deck__cards d) c = Z.to_nat N) /\
  (~ 0 <= N <= MAX_DECK_PACKS ->
   Deck.init N = Raise (ValueError "Invalid number of decks passed.")).
Proof.
  split.
  - intros HN. eexists. split; [now apply init_packs|].
    cbn [Deck._Deck__cards]. split.
    + rewrite length_packs, length_py_range. lia.
    + intros c. now rewrite count_packs, length_py_range.
  - intros HN. unfold Deck.init.
    destruct (Z.ltb_spec N 0) as [Hlt|Hge]; [reflexivity|].
    destruct (Z.gtb_spec N MAX_DECK_PACKS) as [Hgt|Hle]; [reflexivity|].
    exfalso. apply HN. lia.
Qed.

(** X8.  Draws come off the front.  On a deck of at least [n] cards, [n]
    calls of [draw] return its first [n] cards in order and leave the others
    in order; on a deck of fewer cards the calls end in "Taking card from
    empty deck." with the deck empty. *)
Theorem draws_are_fifo (n : nat) (d : Deck.t) :
  ((n <= length (Deck._Deck__cards d))%nat ->
   draw_many n d
   = (Ok (firstn n (Deck._Deck__cards d)),
      Deck.set_cards (skipn n (Deck._Deck__cards d)) d)) /\
  ((length (Deck._Deck__cards d) < n)%nat ->
   draw_many n d
   = (Raise (ValueError "Taking card from empty deck."),
      Deck.set_cards [] d)).
Proof.
  destruct d as [cards o]. cbn [Deck._Deck__cards]. split; intros Hn.
  - now apply draw_many_prefix.
  - now apply draw_many_too_many.
Qed.

(** * Bets *)

Section BetFacts.
Context `{Settings}.

Lemma double_bet_times_at (n : nat) (h : Hand.t) (b : Z) :
  Hand.__bet h = Some b ->
  double_bet_times n h
  = (Ok tt, Hand.set_bet_field (Some (b * 2 ^ Z.of_nat n)) h).
Proof.
  revert h b. induction n as [|n IH]; intros h b Hb.
  - cbn [double_bet_times]. unfold ret. f_equal.
    destruct h as [cs bet act]. cbn in Hb. subst bet.
    unfold Hand.set_bet_field. cbn. do 2 f_equal. lia.
  - cbn [double_bet_times]. rewrite run_bind, (double_bet_at h b Hb).
    rewrite (IH _ (b * 2)) by reflexivity.
    unfold Hand.set_bet_field. cbn. do 3 f_equal.
    rewrite Nat2Z.inj_succ, Z.pow_succ_r by lia. ring.
Qed.

End BetFacts.

(** X9.  [set_bet] accepts a bet exactly when it is at least [MINIMUM_BET]:
    then [get_bet] returns it and the cards and the active flag are as they
    were; a lower bet raises "Bet must be greater than minimum bet." and the
    hand, its former bet included, is as it was. *)
Theorem set_bet_then_get_bet `{Settings} (bet : Z) (h : Hand.t) :
  (MINIMUM_BET <= bet ->
   exists h', Hand.set_bet bet h = (Ok tt, h') /\
     Hand.get_bet h' = (Ok (Some bet), h') /\
     Hand.__cards h' = Hand.__cards h /\
     Hand.__is_active h' = Hand.__is_active h) /\
  (bet < MINIMUM_BET ->
   Hand.set_bet bet h
   = (Raise (ValueError "Bet must be greater than minimum bet."), h)).
Proof.
  split; intros Hb.
  - exists (Hand.set_bet_field (Some bet) h).
    split; [now apply set_bet_ok|]. repeat split.
  - unfold Hand.set_bet.
    replace (bet <? MINIMUM_BET) with true
      by (symmetry; apply Z.ltb_lt; exact Hb).
    reflexivity.
Qed.

(** X10.  On a hand without a bet [double_bet] raises [TypeError] and changes
    nothing.  On a hand with the bet [b], [n] calls of [double_bet] leave the
    bet [b * 2 ^ n] and touch nothing else; when [MINIMUM_BET] is not
    negative and [b] is a bet [set_bet] accepts, that bet is not below [b]
    and is one [set_bet] accepts. *)
Theorem double_bet_doubles `{Settings} (h : Hand.t) :
  (Hand.__bet h = None -> Hand.double_bet h = (Raise TypeError, h)) /\
  (forall (b : Z) (n : nat),
     Hand.__bet h = Some b ->
     exists h', double_bet_times n h = (Ok tt, h') /\
       Hand.__bet h' = Some (b * 2 ^ Z.of_nat n) /\
       Hand.__cards h' = Hand.__cards h /\
       Hand.__is_active h' = Hand.__is_active h /\
       (0 <= MINIMUM_BET -> MINIMUM_BET <= b ->
        b <= b * 2 ^ Z.of_nat n /\ MINIMUM_BET <= b * 2 ^ Z.of_nat n)).
Proof.
  split.
  - intros Hb. unfold Hand.double_bet. rewrite run_bind. unfold get.
    now rewrite Hb.
  - intros b n Hb.
    exists (Hand.set_bet_field (Some (b * 2 ^ Z.of_nat n)) h).
    split; [apply double_bet_times_at; exact Hb|].
    repeat split.
    + assert (1 <= 2 ^ Z.of_nat n) by (apply Z.pow_le_mono_r with (b := 0); lia).
      nia.
    + assert (1 <= 2 ^ Z.of_nat n) by (apply Z.pow_le_mono_r with (b := 0); lia).
      nia.
Qed.

(** [has_pair] never answers, and [Hand.split] never hands out a card: on
    every hand both raise [AttributeError], for want of the method
    [number_of_cards], and the hand keeps all its cards. *)
Lemma hand_split_never_returns (h : Hand.t) :
  Hand.has_pair h = (Raise AttributeError, h) /\
  Hand.split h = (Raise AttributeError, h).
Proof. split; reflexivity. Qed.

(** * What the queries can answer *)

Section ReturnsOnly.

Lemma rt_ret {S A} (P : A -> Prop) (a : A) : P a -> returns_only P (@ret S A a).
Proof. intros Ha s a' [= <-]. exact Ha. Qed.

Lemma rt_raise {S A} (P : A -> Prop) (e : exn) : returns_only P (@raise S A e).
Proof. intros s a. discriminate. Qed.

Lemma rt_bind {S A B} (Q : A -> Prop) (P : B -> Prop)
    (m : M S A) (k : A -> M S B) :
  returns_only Q m -> (forall a, Q a -> returns_only P (k a)) ->
  returns_only P (bind m k).
Proof.
  intros Hm Hk s b. rewrite run_bind. specialize (Hm s).
  destruct (m s) as [[a|e] s1]; cbn [fst] in *.
  - apply Hk. now apply Hm.
  - discriminate.
Qed.

Lemma rt_any {S A} (m : M S A) : returns_only (fun _ => True) m.
Proof. intros s a _. exact I. Qed.

Lemma rt_has_pair {H} (P : bool -> Prop) (hand : option ref) :
  returns_only P (@call H bool hand Hand.has_pair).
Proof.
  intros w a. destruct hand as [r|]; [|discriminate].
  unfold call, on_hand. destruct (heap w !! r); discriminate.
Qed.

Context `{Settings}.

(** [can_split] answers [False] or raises. *)
Lemma rt_can_split (hand : option ref) :
  returns_only (fun b => b = false) (Player.can_split hand).
Proof.
  unfold Player.can_split.
  repeat (eapply rt_bind; [apply rt_any | intros ? _]).
  match goal with |- returns_only _ (if ?b then _ else _) => destruct b end;
    [now apply rt_ret|].
  eapply rt_bind; [apply rt_any | intros ? _].
  match goal with |- returns_only _ (if ?b then _ else _) => destruct b end;
    [now apply rt_ret | apply rt_has_pair].
Qed.

Lemma rt_get_action_choices (hand : option ref) :
  returns_only
    (fun actions =>
       actions = [HasHands.HIT; HasHands.STICK] \/
       actions = [HasHands.HIT; HasHands.STICK; HasHands.DOUBLE_DOWN])
    (Player.get_action_choices hand).
Proof.
  unfold Player.get_action_choices.
  eapply rt_bind; [apply rt_any | intros hand' _].
  eapply rt_bind; [apply rt_can_split | intros splittable ->].
  eapply rt_bind; [apply rt_any | intros doublable _].
  apply rt_ret. destruct doublable; [right | left]; reflexivity.
Qed.

(** With money for the split and splits left, [get_action_choices]
    raises. *)
Lemma choices_stop_at_has_pair (w : World Player.t) (hand : option ref)
    (r : ref) (h : Hand.t) (b : Z) :
  hand_of w hand r h ->
  Hand.__bet h = Some b ->
  b <= Player.__purse (self w) ->
  Player.__split_count (self w) < MAX_SPLITS ->
  Player.get_action_choices hand w = (Raise AttributeError, w).
Proof.
  intros Hhand Hb Hp Hsc. unfold Player.get_action_choices.
  rewrite run_bind, (proj1 Hhand), run_bind.
  rewrite (can_split_stops_at_has_pair w (Some r) r h b); try assumption.
  - reflexivity.
  - now apply (hand_of_some w hand).
Qed.

End ReturnsOnly.

(** X11.  [can_split] never answers [True], and [split] is never among the
    actions [get_action_choices] returns: when it returns, it returns
    ["hit", "stick"] or ["hit", "stick", "double-down"]. *)
Theorem split_is_never_offered `{Settings} (w : World Player.t)
    (hand : option ref) :
  fst (Player.can_split hand w) <> Ok true /\
  (forall actions,
     fst (Player.get_action_choices hand w) = Ok actions ->
     ~ In HasHands.SPLIT actions /\
     (actions = [HasHands.HIT; HasHands.STICK] \/
      actions = [HasHands.HIT; HasHands.STICK; HasHands.DOUBLE_DOWN])).
Proof.
  split.
  - intros Hc. pose proof (rt_can_split hand w true Hc). discriminate.
  - intros actions Ha.
    pose proof (rt_get_action_choices hand w actions Ha) as Hcases.
    split; [|exact Hcases].
    destruct Hcases as [-> | ->]; cbn; intros Hin;
      repeat (destruct Hin as [Hin|Hin]; [discriminate|]); exact Hin.
Qed.

(** X12.  For a hand with a bet the purse covers, held by a player with
    splits left, [get_action_choices] and [can_split] return nothing: both
    raise [AttributeError] (from [has_pair]) and change nothing. *)
Theorem choices_raise_when_split_affordable `{Settings} (w : World Player.t)
    (hand : option ref) (r : ref) (h : Hand.t) (b : Z) :
  hand_of w hand r h ->
  Hand.__bet h = Some b ->
  b <= Player.__purse (self w) ->
  Player.__split_count (self w) < MAX_SPLITS ->
  Player.can_split hand w = (Raise AttributeError, w) /\
  Player.get_action_choices hand w = (Raise AttributeError, w).
Proof.
  intros Hhand Hb Hp Hsc. split.
  - now apply (can_split_stops_at_has_pair w hand r h b).
  - now apply (choices_stop_at_has_pair w hand r h b).
Qed.

Lemma choices_raise_when_split_affordable_witness :
  @Player.can_split Example.settings None Example.pair_of_eights
  = (Raise AttributeError, Example.pair_of_eights) /\
  @Player.get_action_choices Example.settings None Example.pair_of_eights
  = (Raise AttributeError, Example.pair_of_eights).
Proof.
  apply (@choices_raise_when_split_affordable Example.settings
           Example.pair_of_eights None 0%nat
           (Hand.mk [Example.card Eight Spades; Example.card Eight Hearts]
                    (Some 50) true) 50).
  - split; reflexivity.
  - reflexivity.
  - cbn. lia.
  - cbn. lia.
Defined.

(** X13.  [is_valid_action] never accepts "split".  Whenever it returns, it
    accepts "hit" and "stick", and it refuses every input other than "hit",
    "stick" and "double-down". *)
Theorem valid_actions `{Settings} (w : World Player.t) (user_input : string)
    (valid : bool) (message : option string) :
  fst (Interface.is_valid_action user_input w) = Ok (valid, message) ->
  (user_input = HasHands.SPLIT -> valid = false) /\
  (user_input = HasHands.HIT \/ user_input = HasHands.STICK -> valid = true) /\
  (valid = true ->
   user_input = HasHands.HIT \/ user_input = HasHands.STICK \/
   user_input = HasHands.DOUBLE_DOWN).
Proof.
  unfold Interface.is_valid_action. rewrite run_bind.
  pose proof (rt_get_action_choices None w) as Hchoices.
  destruct (Player.get_action_choices None w) as [[actions|e] w'];
    [|discriminate].
  specialize (Hchoices actions eq_refl).
  destruct (py_in user_input actions) eqn:Hin; cbn [negb fst ret];
    intros [= <- <-].
  - unfold py_in in Hin. apply existsb_exists in Hin as (a & Ha & Heq).
    apply String.eqb_eq in Heq. subst a.
    split; [|split].
    + intros ->. exfalso.
      destruct Hchoices as [-> | ->]; cbn in Ha;
        repeat (destruct Ha as [Ha|Ha]; [discriminate|]); exact Ha.
    + reflexivity.
    + intros _. destruct Hchoices as [-> | ->]; cbn in Ha; intuition auto.
  - split; [reflexivity|]. split; [|discriminate].
    intros Hu. exfalso.
    assert (Hex : existsb (String.eqb user_input) actions = true).
    { apply existsb_exists. exists user_input. split; [|apply String.eqb_refl].
      destruct Hchoices as [-> | ->], Hu as [-> | ->]; cbn; auto. }
    unfold py_in in Hin. congruence.
Qed.

Lemma valid_actions_witness :
  fst (@Interface.is_valid_action Example.settings "hit" Example.short_of_money)
  = Ok (true, None) /\
  ("hit"%string = HasHands.SPLIT -> true = false) /\
  ("hit"%string = HasHands.HIT \/ "hit"%string = HasHands.STICK -> true = true) /\
  (true = true ->
   "hit"%string = HasHands.HIT \/ "hit"%string = HasHands.STICK \/
   "hit"%string = HasHands.DOUBLE_DOWN).
Proof.
  split; [reflexivity|].
  apply (@valid_actions Example.settings Example.short_of_money "hit"
           true None).
  reflexivity.
Defined.

(** * The current hand *)

Section CurrentHand.

Lemma first_active_spec (hands : list ref) (w : World Player.t) :
  (forall r, In r hands -> (r < length (heap w))%nat) ->
  exists res,
    Player.first_active hands w = (Ok res, w) /\
    match res with
    | Some r =>
        exists pre post h,
          hands = pre ++ r :: post /\
          heap w !! r = Some h /\ Hand.__is_active h = true /\
          forall r', In r' pre -> inactive_at (heap w) r'
    | None => forall r, In r hands -> inactive_at (heap w) r
    end.
Proof.
  induction hands as [|r hands IH]; intros Hwf.
  - exists None. split; [reflexivity|]. intros r [].
  - destruct (lookup_lt_is_Some_2 (heap w) r) as [h Hr];
      [apply Hwf; now left|].
    cbn [Player.first_active]. rewrite run_bind.
    unfold Hand.is_active. rewrite (on_hand_read r _ w h Hr).
    destruct (Hand.__is_active h) eqn:Hact.
    + exists (Some r). split; [reflexivity|].
      exists [], hands, h. repeat split; try assumption. intros r' [].
    + destruct IH as (res & Hrun & Hres);
        [intros r' Hr'; apply Hwf; now right|].
      exists res. split; [exact Hrun|].
      destruct res as [r0|].
      * destruct Hres as (pre & post & h0 & -> & Hr0 & Ha0 & Hpre).
        exists (r :: pre), post, h0. repeat split; try assumption.
        intros r' [<-|Hin]; [now exists h | now apply Hpre].
      * intros r' [<-|Hin]; [now exists h | now apply Hres].
Qed.

(** Whatever [get_hand] returns is an active hand. *)
Lemma first_active_is_active (hands : list ref) (w : World Player.t) (r : ref) :
  fst (Player.first_active hands w) = Ok (Some r) ->
  exists h, heap w !! r = Some h /\ Hand.__is_active h = true.
Proof.
  induction hands as [|r0 hands IH]; [discriminate|].
  cbn [Player.first_active]. rewrite run_bind.
  unfold Hand.is_active. rewrite on_hand_gets_cases.
  destruct (heap w !! r0) as [h|] eqn:Hr0; [|discriminate].
  destruct (Hand.__is_active h) eqn:Hact.
  - intros [= <-]. now exists h.
  - exact IH.
Qed.

Lemma get_hand_is_active (w : World Player.t) (r : ref) :
  fst (Player.get_hand w) = Ok (Some r) ->
  exists h, heap w !! r = Some h /\ Hand.__is_active h = true.
Proof.
  unfold Player.get_hand. rewrite run_bind, on_self_gets.
  apply first_active_is_active.
Qed.

Lemma stick_at {H} `{HasHands.ops H} (w : World H) (hand : option ref)
    (r : ref) (h : Hand.t) :
  hand_of w hand r h ->
  HasHands.stick hand w
  = (Ok tt, mkWorld (self w) (<[r := Hand.set_is_active false h]> (heap w))
                    (deck w)).
Proof.
  intros [Hdef Hr]. unfold HasHands.stick, call.
  rewrite run_bind, Hdef. now rewrite (on_hand_at r _ w h Hr).
Qed.

End CurrentHand.

(** X14.  For a player whose hands are all in the heap, [get_hand] changes
    nothing and returns the first hand, in the order of the player's list,
    that is active: every hand before it is inactive; it returns [None]
    exactly when every hand is inactive. *)
Theorem get_hand_first_active (w : World Player.t) :
  (forall r, In r (Player.__hands (self w)) -> (r < length (heap w))%nat) ->
  exists res,
    Player.get_hand w = (Ok res, w) /\
    match res with
    | Some r =>
        exists pre post h,
          Player.__hands (self w) = pre ++ r :: post /\
          heap w !! r = Some h /\ Hand.__is_active h = true /\
          forall r', In r' pre -> inactive_at (heap w) r'
    | None =>
        forall r, In r (Player.__hands (self w)) -> inactive_at (heap w) r
    end.
Proof.
  intros Hwf. unfold Player.get_hand.
  destruct (first_active_spec _ w Hwf) as (res & Hrun & Hres).
  exists res. split; [|exact Hres].
  now rewrite run_bind, on_self_gets.
Qed.

Lemma get_hand_first_active_witness :
  Player.get_hand Scene.second_hand = (Ok (Some 1%nat), Scene.second_hand) /\
  inactive_at (heap Scene.second_hand) 0%nat.
Proof.
  destruct (get_hand_first_active Scene.second_hand)
    as (res & Hrun & Hres).
  - intros r [<-|[<-|[]]]; cbn; lia.
  - vm_compute in Hrun. injection Hrun as <-. split; [reflexivity|].
    destruct Hres as (pre & post & h & Hhands & _ & _ & Hpre).
    destruct pre as [|r0 pre]; [discriminate|].
    injection Hhands as -> _. apply Hpre. now left.
Defined.

(** X15.  [stick] deactivates the hand it is called on and touches nothing
    else, neither its cards nor its bet nor the deck.  For a player, the
    hand is then no longer what [get_hand] returns, and a second [stick] on
    it changes nothing. *)
Theorem stick_ends_the_hand (w : World Player.t) (hand : option ref)
    (r : ref) (h : Hand.t) :
  hand_of w hand r h ->
  exists w',
    HasHands.stick hand w = (Ok tt, w') /\
    w' = mkWorld (self w)
                 (<[r := Hand.mk (Hand.__cards h) (Hand.__bet h) false]> (heap w))
                 (deck w) /\
    fst (Player.get_hand w') <> Ok (Some r) /\
    HasHands.stick (Some r) w' = (Ok tt, w').
Proof.
  intros Hhand. eexists. split; [now apply (stick_at w hand r h)|].
  split; [reflexivity|].
  assert (Hlt : (r < length (heap w))%nat)
    by (eapply lookup_lt_Some; apply Hhand).
  split.
  - intros Hget. apply get_hand_is_active in Hget as (h' & Hr' & Hact).
    cbn [heap] in Hr'. rewrite list_lookup_insert_eq in Hr' by exact Hlt.
    injection Hr' as <-. discriminate.
  - rewrite (stick_at _ (Some r) r (Hand.set_is_active false h)).
    + cbn [self heap deck]. now rewrite list_insert_insert_eq.
    + split; [reflexivity|]. cbn [heap]. now apply list_lookup_insert_eq.
Qed.

Lemma stick_ends_the_hand_witness :
  exists w',
    HasHands.stick None Scene.second_hand = (Ok tt, w') /\
    Player.get_hand w' = (Ok None, w').
Proof.
  destruct (stick_ends_the_hand Scene.second_hand None 1%nat
              (Hand.mk [Example.card Five Spades; Example.card Six Clubs]
                       (Some 40) true))
    as (w' & Hstick & -> & _ & _).
  - split; reflexivity.
  - eexists. split; [exact Hstick | reflexivity].
Defined.

(** X16.  [hit] draws before it looks at the hand: called without a hand by
    a holder that has no current hand, with a card on the deck, it raises
    [AttributeError] and the deck has lost its top card, which no hand has
    received. *)
Theorem hit_without_hand_loses_card {H : Type} `{HasHands.ops H}
    (w : World H) (c : Card.t) (rest : list Card.t) :
  HasHands.get_hand w = (Ok None, w) ->
  Deck._Deck__cards (deck w) = c :: rest ->
  HasHands.hit None w
  = (Raise AttributeError,
     mkWorld (self w) (heap w) (Deck.set_cards rest (deck w))).
Proof.
  intros Hget Hd. unfold HasHands.hit, HasHands.default_hand.
  rewrite run_bind, Hget, run_bind, (on_deck_draw w c rest Hd).
  reflexivity.
Qed.

Lemma hit_without_hand_loses_card_witness :
  HasHands.hit None Scene.newcomer
  = (Raise AttributeError,
     mkWorld (Player.mk "Bob" 100 [] 0) []
             (Deck.mk [Example.card Six Hearts] None)).
Proof.
  apply (hit_without_hand_loses_card Scene.newcomer
           (Example.card Five Hearts) [Example.card Six Hearts]);
    reflexivity.
Defined.

(** X17.  [Player(name, purse)] raises "Name cannot be empty." on the empty
    name and otherwise returns a player with that name and purse, no hand
    and a split count of 0, for whom [get_hand] returns [None].  [reset]
    brings a player back to that: no hand, split count 0, [get_hand]
    returning [None], the name and the purse being kept, and the hand
    objects and the deck untouched. *)
Theorem new_and_reset_player_has_no_hand (name : string) (purse : Z) :
  Player.init EmptyString purse = Raise (ValueError "Name cannot be empty.") /\
  (name <> EmptyString ->
   exists p, Player.init name purse = Ok p /\
     Player.__name p = name /\ Player.__purse p = purse /\
     Player.__split_count p = 0 /\
     forall hp d, Player.get_hand (mkWorld p hp d) = (Ok None, mkWorld p hp d)) /\
  (forall w : World Player.t,
     exists w', Player.reset w = (Ok tt, w') /\
       Player.__hands (self w') = [] /\ Player.__split_count (self w') = 0 /\
       Player.__name (self w') = Player.__name (self w) /\
       Player.__purse (self w') = Player.__purse (self w) /\
       heap w' = heap w /\ deck w' = deck w /\
       Player.get_hand w' = (Ok None, w')).
Proof.
  split; [reflexivity|]. split.
  - intros Hname. unfold Player.init.
    destruct (String.eqb_spec name EmptyString) as [->|_]; [contradiction|].
    eexists. split; [reflexivity|]. repeat split.
  - intros w. eexists. split; [reflexivity|]. repeat split.
Qed.

(** * What the operations leave alone *)

Section Frames.
Context `{Settings}.

Lemma keeps_double_down {X} (f : Player.t -> X) (hand : option ref) :
  (forall p s, f (Player.set_purse p s) = f s) ->
  keeps f (Player.double_down hand).
Proof.
  intros Hf. unfold Player.double_down, Player.debit.
  pose proof (@keeps_hit X f) as Hhit.
  repeat first
    [ apply Hhit
    | apply keeps_on_self_modify; intros ?; apply Hf
    | progress auto with keeps
    | apply keeps_bind; [|intros ?]
    | match goal with
      | |- keeps _ (match ?o with Some _ => _ | None => _ end) => destruct o
      end ].
Qed.

Lemma keeps_run_op {X} (f : Player.t -> X) (o : player_op) :
  (forall p s, f (Player.set_purse p s) = f s) ->
  (changes_hands o = true -> forall hs s, f (Player.set_hands hs s) = f s) ->
  (changes_split_count o = true ->
   forall n s, f (Player.set_split_count n s) = f s) ->
  keeps f (run_op o).
Proof.
  intros Hp Hh' Hs'.
  destruct o as [hand|hand|hand|hand|hand| |hand|hand|hand| | | | ];
    cbn [run_op changes_hands changes_split_count] in *.
  - apply keeps_hit.
  - apply keeps_stick.
  - unfold Player.split, Player.debit, Player.give_hand.
    pose proof (@keeps_hit X f) as Hhit.
    repeat first
      [ apply Hhit
      | apply keeps_on_self_modify; intros ?;
        first [apply Hp | apply (Hh' eq_refl) | apply (Hs' eq_refl)]
      | progress auto with keeps
      | apply keeps_bind; [|intros ?]
      | match goal with
        | |- keeps _ (match ?o with Some _ => _ | None => _ end) => destruct o
        end ].
  - now apply keeps_double_down.
  - apply keeps_on_self_modify. intros s. apply (Hh' eq_refl).
  - unfold Player.reset. apply keeps_bind; [|intros ?];
      apply keeps_on_self_modify; intros s;
      [apply (Hh' eq_refl) | apply (Hs' eq_refl)].
  - apply keeps_void, keeps_can_split.
  - apply keeps_void, keeps_can_double_down.
  - apply keeps_void, keeps_get_action_choices.
  - apply keeps_void, keeps_get_hand.
  - apply keeps_void, keeps_on_self_gets.
  - apply keeps_void, keeps_on_self_gets.
  - apply keeps_void, keeps_ret.
Qed.

Lemma split_count_after_split (w : World Player.t) (hand : option ref) :
  Player.__split_count (self (snd (Player.split hand w)))
  = Player.__split_count (self w)
  \/ Player.__split_count (self (snd (Player.split hand w)))
     = Player.__split_count (self w) + 1.
Proof.
  unfold Player.split.
  destruct (default_hand_cases w hand) as [[hand'|e] Hdef].
  - right. rewrite run_bind, Hdef, run_bind.
    destruct w as [s hp d]. rewrite on_self_modify_mk. cbv beta iota.
    match goal with
    | |- context [snd (?m ?W)] =>
        assert (Hk : keeps Player.__split_count m);
        [|rewrite (Hk W); reflexivity]
    end.
    unfold Player.debit, Player.give_hand.
    pose proof (@keeps_hit _ Player.__split_count) as Hhit.
    keeps_steps.
  - left. now rewrite run_bind, Hdef.
Qed.

End Frames.

(** X18.  No operation of a player changes the player's name.  Only [split],
    [give_hand] and [reset] change the list of hands; only [split] and
    [reset] change the split count, and [split] leaves it as it was or one
    higher. *)
Theorem player_fields_frame `{Settings} (o : player_op) (w : World Player.t) :
  Player.__name (self (snd (run_op o w))) = Player.__name (self w) /\
  (changes_hands o = false ->
   Player.__hands (self (snd (run_op o w))) = Player.__hands (self w)) /\
  (changes_split_count o = false ->
   Player.__split_count (self (snd (run_op o w)))
   = Player.__split_count (self w)) /\
  (forall hand, o = OpSplit hand ->
     Player.__split_count (self w)
     <= Player.__split_count (self (snd (run_op o w)))
     <= Player.__split_count (self w) + 1).
Proof.
  split; [|split; [|split]].
  - apply (keeps_run_op Player.__name o); reflexivity.
  - intros Hh. apply (keeps_run_op Player.__hands o);
      [reflexivity | congruence | reflexivity].
  - intros Hs. apply (keeps_run_op Player.__split_count o);
      [reflexivity | reflexivity | congruence].
  - intros hand ->. cbn [run_op].
    destruct (split_count_after_split w hand) as [-> | ->]; lia.
Qed.

(** * Wagers on a short deck, and the eligible double-down *)

Section ShortDeck.
Context `{Settings}.

(** [split] up to the first [hit]: the debit is taken, the second card is
    in a new hand object with the bet. *)
Lemma split_up_to_hits (w : World Player.t) (hand : option ref) (r : ref)
    (h : Hand.t) (c1 c2 : Card.t) (b : Z) :
  hand_of w hand r h ->
  Hand.__cards h = [c1; c2] ->
  Hand.__bet h = Some b ->
  MINIMUM_BET <= b ->
  Player.split hand w
  = (bind (HasHands.hit (Some r)) (fun _ =>
       bind (HasHands.hit (Some (length (heap w)))) (fun _ =>
         Player.give_hand (length (heap w)))))
      (mkWorld
         (Player.mk (Player.__name (self w)) (Player.__purse (self w) - b)
                    (Player.__hands (self w))
                    (Player.__split_count (self w) + 1))
         ((<[r := Hand.mk [c1] (Some b) (Hand.__is_active h)]> (heap w))
            ++ [Hand.mk [c2] (Some b) true])
         (deck w)).
Proof.
  intros [Hdef Hr] Hcards Hbet Hmin.
  assert (Hlt : (r < length (heap w))%nat) by (eapply lookup_lt_Some; exact Hr).
  unfold Player.split. rewrite run_bind, Hdef.
  destruct w as [[name purse hands sc] hp d]. cbn [self heap deck] in *.
  destruct h as [cs bet act]. cbn [Hand.__cards Hand.__bet Hand.__is_active] in *.
  subst cs bet.
  cbn [Player.__name Player.__purse Player.__hands Player.__split_count].
  rewrite run_bind, on_self_modify_mk. cbv beta iota.
  rewrite run_bind. unfold Player.debit.
  rewrite run_bind, on_self_gets_mk. cbv beta iota.
  unfold call, Hand.get_bet.
  rewrite run_bind, (on_hand_read_mk r _ _ _ _ _ Hr). cbv beta iota.
  cbn [Hand.__bet Player.set_split_count Player.set_purse
       Player.__name Player.__purse Player.__hands Player.__split_count].
  rewrite on_self_modify_mk. cbv beta iota.
  rewrite run_bind, (on_hand_mk r _ _ _ _ _ Hr), pop_card_two.
  cbn [fst snd]. cbv beta iota.
  rewrite run_bind, new_hand_mk, length_insert. cbv beta iota.
  cbn [Hand.init].
  rewrite run_bind, (on_hand_read_mk r _ _ _ _ _ (heap_lookup_old _ _ _ _ Hlt)).
  cbv beta iota. cbn [Hand.__bet].
  rewrite run_bind, (on_hand_mk _ _ _ _ _ _ (heap_lookup_new _ _ _ _)).
  rewrite set_bet_ok by exact Hmin.
  cbn [fst snd Hand.set_bet_field Hand.__cards Hand.__is_active].
  cbv beta iota. rewrite heap_insert_new.
  unfold Hand.set_bet_field. cbn [Hand.__cards Hand.__bet Hand.__is_active].
  reflexivity.
Qed.

End ShortDeck.

(** X19.  [split] is not undone when the deck runs out.  On a hand of two
    cards with a bet [set_bet] accepts, with fewer than two cards in the
    deck, [split] raises "Taking card from empty deck."; by then the purse is
    down by the bet and the split count up by one, the hand has lost its
    second card and holds its first card followed by what the deck had, the
    deck is empty, and the player's list of hands is as it was: the hand
    split off is not in it. *)
Theorem split_on_short_deck `{Settings} (w : World Player.t)
    (hand : option ref) (r : ref) (h : Hand.t) (c1 c2 : Card.t) (b : Z) :
  hand_of w hand r h ->
  Hand.__cards h = [c1; c2] ->
  Hand.__bet h = Some b ->
  MINIMUM_BET <= b ->
  (length (Deck._Deck__cards (deck w)) < 2)%nat ->
  exists (w' : World Player.t) (h1 : Hand.t),
    Player.split hand w
    = (Raise (ValueError "Taking card from empty deck."), w') /\
    Player.__purse (self w') = Player.__purse (self w) - b /\
    Player.__split_count (self w') = Player.__split_count (self w) + 1 /\
    Player.__hands (self w') = Player.__hands (self w) /\
    heap w' !! r = Some h1 /\
    Hand.__cards h1 = c1 :: Deck._Deck__cards (deck w) /\
    Deck._Deck__cards (deck w') = [].
Proof.
  intros Hhand Hcards Hbet Hmin Hshort.
  assert (Hlt : (r < length (heap w))%nat)
    by (eapply lookup_lt_Some; apply Hhand).
  rewrite (split_up_to_hits w hand r h c1 c2 b) by assumption.
  destruct (Deck._Deck__cards (deck w)) as [|d1 [|d2 rest]] eqn:Hd;
    [| |cbn in Hshort; lia].
  - rewrite run_bind, (hit_empty_deck _ (Some r) (Some r)) by (reflexivity || exact Hd).
    eexists _, _. split; [reflexivity|].
    cbn [self heap deck Player.__purse Player.__split_count Player.__hands].
    repeat split; [now apply heap_lookup_old | reflexivity | exact Hd].
  - destruct w as [s hp d]. cbn [self heap deck] in *.
    rewrite run_bind.
    rewrite (hit_mk _ _ _ r _ d1 [] (heap_lookup_old _ _ _ _ Hlt) Hd).
    cbv beta iota. rewrite heap_insert_old by exact Hlt.
    rewrite after_hit_one.
    rewrite run_bind, (hit_empty_deck _ (Some (length hp)) (Some (length hp)))
      by reflexivity.
    eexists _, _. split; [reflexivity|].
    cbn [self heap deck Player.__purse Player.__split_count Player.__hands].
    repeat split; [now apply heap_lookup_old | reflexivity].
Qed.

Lemma split_on_short_deck_witness :
  exists (w' : World Player.t) (h1 : Hand.t),
    @Player.split Example.settings None Scene.one_card_left
    = (Raise (ValueError "Taking card from empty deck."), w') /\
    Player.__purse (self w') = 100 - 50 /\
    Player.__hands (self w') = [0%nat] /\
    heap w' !! 0%nat = Some h1 /\
    Hand.__cards h1 = [Example.card Eight Spades; Example.card Two Clubs].
Proof.
  destruct (@split_on_short_deck Example.settings Scene.one_card_left None
              0%nat
              (Hand.mk [Example.card Eight Spades; Example.card Eight Hearts]
                       (Some 50) true)
              (Example.card Eight Spades) (Example.card Eight Hearts) 50)
    as (w' & h1 & Hrun & Hp & _ & Hh & Hr & Hc & _);
    try reflexivity; try (cbn; lia).
  - split; reflexivity.
  - exists w', h1. repeat split; assumption.
Defined.

(** X20.  [double_down] is not undone either: on a hand with a bet, with an
    empty deck, it raises "Taking card from empty deck." when the purse is
    already down by the bet; the hand, its bet and its active flag are as
    they were. *)
Theorem double_down_on_empty_deck (w : World Player.t) (hand : option ref)
    (r : ref) (h : Hand.t) (b : Z) :
  hand_of w hand r h ->
  Hand.__bet h = Some b ->
  Deck._Deck__cards (deck w) = [] ->
  Player.double_down hand w
  = (Raise (ValueError "Taking card from empty deck."),
     mkWorld (Player.set_purse (Player.__purse (self w) - b) (self w))
             (heap w) (deck w)).
Proof.
  intros [Hdef Hr] Hb Hd. unfold Player.double_down.
  rewrite run_bind, Hdef, run_bind, (debit_at w r h b) by assumption.
  rewrite run_bind, (hit_empty_deck _ (Some r) (Some r)) by (reflexivity || exact Hd).
  reflexivity.
Qed.

Lemma double_down_on_empty_deck_witness :
  Player.double_down None
    (mkWorld (self Example.three_cards) (heap Example.three_cards)
             (Deck.mk [] None))
  = (Raise (ValueError "Taking card from empty deck."),
     mkWorld (Player.mk "Ann" (10 - 50) [0%nat] 0)
             (heap Example.three_cards) (Deck.mk [] None)).
Proof.
  apply (double_down_on_empty_deck
           (mkWorld (self Example.three_cards) (heap Example.three_cards)
                    (Deck.mk [] None))
           None 0%nat
           (Hand.mk [Example.card Two Spades; Example.card Three Hearts;
                     Example.card Four Spades] (Some 50) true) 50).
  - split; reflexivity.
  - reflexivity.
  - reflexivity.
Defined.

(** X21.  When [can_double_down] answers [True] for a hand with the bet [b],
    the hand holds two cards and the purse at least [b]; [double_down], with
    a card on the deck, then returns, the hand holds three cards, has the bet
    [2 * b] and is inactive, and the purse, down by [b], is not negative. *)
Theorem eligible_double_down (w : World Player.t) (hand : option ref)
    (r : ref) (h : Hand.t) (b : Z) (c : Card.t) (rest : list Card.t) :
  hand_of w hand r h ->
  Hand.__bet h = Some b ->
  Player.can_double_down hand w = (Ok true, w) ->
  Deck._Deck__cards (deck w) = c :: rest ->
  exists (w' : World Player.t) (h' : Hand.t),
    Player.double_down hand w = (Ok tt, w') /\
    heap w' !! r = Some h' /\
    length (Hand.__cards h') = 3%nat /\
    Hand.__bet h' = Some (b * 2) /\
    Hand.__is_active h' = false /\
    Player.__purse (self w') = Player.__purse (self w) - b /\
    0 <= Player.__purse (self w') /\
    Deck._Deck__cards (deck w') = rest.
Proof.
  intros Hhand Hb Hcan Hd.
  rewrite (can_double_down_at w hand r h b Hhand Hb) in Hcan.
  injection Hcan as Hcan. apply andb_true_iff in Hcan as [Hp Hl].
  rewrite Z.geb_leb in Hp. apply Z.leb_le in Hp. apply Nat.eqb_eq in Hl.
  assert (Hlt : (r < length (heap w))%nat)
    by (eapply lookup_lt_Some; apply Hhand).
  eexists _, _. split; [now apply (double_down_at w hand r h b c rest)|].
  cbn [self heap deck Player.set_purse Player.__purse].
  split; [now apply list_lookup_insert_eq|].
  cbn [Hand.__cards Hand.__bet Hand.__is_active].
  rewrite length_app, Hl. repeat split. lia.
Qed.

Lemma eligible_double_down_witness :
  exists (w' : World Player.t) (h' : Hand.t),
    Player.double_down None Scene.second_hand = (Ok tt, w') /\
    heap w' !! 1%nat = Some h' /\
    length (Hand.__cards h') = 3%nat /\
    Hand.__bet h' = Some (40 * 2) /\
    Player.__purse (self w') = 100 - 40.
Proof.
  destruct (eligible_double_down Scene.second_hand None 1%nat
              (Hand.mk [Example.card Five Spades; Example.card Six Clubs]
                       (Some 40) true) 40 (Example.card Ten Hearts) [])
    as (w' & h' & Hrun & Hr & Hl & Hb & _ & Hp & _ & _);
    try reflexivity.
  - split; reflexivity.
  - exists w', h'. repeat split; assumption.
Defined.

(** * The dealer *)

Section DealerFacts.

Lemma rank_is_ace (c : Card.t) :
  String.eqb (Card.get_rank c) "A" = true <-> Card.rank c = Ace.
Proof.
  destruct c as [[] s]; cbn; split; intros Heq;
    first [reflexivity | discriminate].
Qed.

End DealerFacts.

(** X22.  [can_offer_insurance] looks at the second card of the dealer's hand
    and at nothing else: on a hand of two cards or more it changes nothing
    and answers [True] exactly when that card is an ace, whatever the first
    card is; on a hand of fewer than two cards it raises [IndexError]. *)
Theorem insurance_on_upcard_ace (w : World Dealer.t) (r : ref) (h : Hand.t) :
  Dealer.__hand (self w) = Some r ->
  heap w !! r = Some h ->
  (forall c0 c1 cs,
     Hand.__cards h = c0 :: c1 :: cs ->
     exists b, Dealer.can_offer_insurance w = (Ok b, w) /\
               (b = true <-> Card.rank c1 = Ace)) /\
  ((length (Hand.__cards h) < 2)%nat ->
   Dealer.can_offer_insurance w = (Raise IndexError, w)).
Proof.
  intros Hh Hr. unfold Dealer.can_offer_insurance, Dealer.upcard. split.
  - intros c0 c1 cs Hcs.
    exists (String.eqb (Card.get_rank c1) "A").
    split; [|apply rank_is_ace].
    rewrite run_bind, (dealer_card 1 w r h Hh Hr), get_card_by_index_cases.
    cbn [Z.eqb orb negb]. rewrite Hcs. reflexivity.
  - intros Hlen.
    rewrite run_bind, (dealer_card 1 w r h Hh Hr), get_card_by_index_cases.
    cbn [Z.eqb orb negb].
    rewrite (proj2 (lookup_ge_None _ _)); [reflexivity|].
    change (Z.to_nat 1) with 1%nat. lia.
Qed.

Lemma insurance_on_upcard_ace_witness :
  Dealer.can_offer_insurance Scene.dealer_ace_up
  = (Ok true, Scene.dealer_ace_up).
Proof.
  destruct (insurance_on_upcard_ace Scene.dealer_ace_up 0%nat
              (Hand.mk [Example.card King Hearts; Example.card Ace Spades]
                       None true) eq_refl eq_refl) as [Hcards _].
  destruct (Hcards (Example.card King Hearts) (Example.card Ace Spades) []
              eq_refl) as (b & Hrun & Hb).
  rewrite Hrun. f_equal. f_equal. now apply Hb.
Defined.

(** X23.  A dealer keeps the last hand given: after two calls of [give_hand]
    [get_hand] returns the second hand, and the first is no longer reachable
    from the dealer.  A dealer without a hand, as built or after [reset],
    raises [AttributeError] on [upcard], [hole_card] and
    [can_offer_insurance]. *)
Theorem dealer_holds_last_hand (w : World Dealer.t) (r1 r2 : ref) :
  (exists w2,
     bind (Dealer.give_hand r1) (fun _ => Dealer.give_hand r2) w = (Ok tt, w2) /\
     Dealer.get_hand w2 = (Ok (Some r2), w2) /\
     heap w2 = heap w /\ deck w2 = deck w) /\
  (exists w0,
     Dealer.reset w = (Ok tt, w0) /\
     Dealer.get_hand w0 = (Ok None, w0) /\
     Dealer.upcard w0 = (Raise AttributeError, w0) /\
     Dealer.hole_card w0 = (Raise AttributeError, w0) /\
     Dealer.can_offer_insurance w0 = (Raise AttributeError, w0)).
Proof.
  split; eexists; (split; [reflexivity|]); repeat split.
Qed.

(** * The validation functions of the interface *)

Section Decimal.

Import DecimalString.

Lemma digits_acc (d : Decimal.uint) (acc : positive) :
  py_int_digits (Zpos acc) (NilEmpty.string_of_uint d)
  = Ok (Zpos (Pos.of_uint_acc d acc)).
Proof.
  revert acc. induction d; intros acc; cbn [NilEmpty.string_of_uint];
    [reflexivity | ..];
    cbn [py_int_digits];
    match goal with
    | |- context [digit_of_ascii ?c] =>
        let v := eval vm_compute in (digit_of_ascii c) in
        change (digit_of_ascii c) with v
    end;
    cbv iota; cbn [Pos.of_uint_acc];
    match goal with
    | |- py_int_digits ?z _ = Ok (Zpos (Pos.of_uint_acc _ ?p)) =>
        replace z with (Zpos p) by lia
    end;
    apply IHd.
Qed.

Lemma digits_zero (d : Decimal.uint) :
  py_int_digits 0 (NilEmpty.string_of_uint d) = Ok (Z.of_N (Pos.of_uint d)).
Proof.
  induction d; cbn [NilEmpty.string_of_uint]; [reflexivity | ..];
    cbn [py_int_digits];
    match goal with
    | |- context [digit_of_ascii ?c] =>
        let v := eval vm_compute in (digit_of_ascii c) in
        change (digit_of_ascii c) with v
    end;
    cbv iota; cbn [Pos.of_uint Z.of_N];
    first [ exact IHd
          | match goal with
            | |- py_int_digits ?z _ = Ok (Zpos (Pos.of_uint_acc _ ?p)) =>
                change z with (Zpos p)
            end; apply digits_acc ].
Qed.

(** [int(str(n))] is [n] for a positive [n]. *)
Lemma py_int_py_str (n : Z) : 0 < n -> py_int (py_str n) = Ok n.
Proof.
  intros Hn. destruct n as [|p|p]; try lia.
  unfold py_str. cbn [Z.to_int NilZero.string_of_int].
  unfold NilZero.string_of_uint.
  pose proof (DecimalPos.Unsigned.to_uint_nonnil p) as Hnil.
  pose proof (DecimalPos.Unsigned.of_to p) as Hof.
  pose proof (digits_zero (Pos.to_uint p)) as Hd.
  destruct (Pos.to_uint p) eqn:Hu; [contradiction | ..];
    unfold py_int; cbn [NilEmpty.string_of_uint] in *;
    rewrite Hd, Hof; reflexivity.
Qed.

Lemma in_py_range_from (a b x : Z) :
  In x (py_range_from a b) <-> a <= x < b.
Proof.
  unfold py_range_from. rewrite in_map_iff. split.
  - intros (i & <- & Hi). apply in_seq in Hi. lia.
  - intros Hx. exists (Z.to_nat (x - a)). split; [lia|].
    apply in_seq. lia.
Qed.

End Decimal.

(** X24.  [is_valid_deck_quantity] accepts exactly the decimal writings of
    the numbers from 1 to [MAX_DECK_PACKS].  What it accepts, [int] reads
    back as such a number, and [Deck] builds a deck of that many packs; it
    refuses "0", a number of packs that [Deck] takes. *)
Theorem deck_quantity_accepted `{Settings} (user_input : string) :
  (fst (Interface.is_valid_deck_quantity user_input) = true <->
   exists n, 1 <= n <= MAX_DECK_PACKS /\ user_input = py_str n) /\
  (fst (Interface.is_valid_deck_quantity user_input) = true ->
   exists n d, py_int user_input = Ok n /\ 1 <= n <= MAX_DECK_PACKS /\
               Deck.init n = Ok d /\
               length (Deck._Deck__cards d) = Z.to_nat (52 * n)) /\
  fst (Interface.is_valid_deck_quantity "0") = false.
Proof.
  assert (Hiff : forall s,
            fst (Interface.is_valid_deck_quantity s) = true <->
            exists n, 1 <= n <= MAX_DECK_PACKS /\ s = py_str n).
  { intros s0. unfold Interface.is_valid_deck_quantity, py_in.
    destruct (existsb _ _) eqn:Hex; cbn [negb fst].
    - split; [intros _|reflexivity].
      apply existsb_exists in Hex as (s & Hs & Heq).
      apply String.eqb_eq in Heq. subst s.
      apply in_map_iff in Hs as (n & Hn & Hin).
      apply in_py_range_from in Hin. exists n. split; [lia | now symmetry].
    - split; [discriminate|]. intros (n & Hn & ->). exfalso.
      assert (Hex' : existsb (String.eqb (py_str n))
                       (map py_str (py_range_from 1 (MAX_DECK_PACKS + 1)))
                     = true); [|congruence].
      apply existsb_exists. exists (py_str n).
      split; [|apply String.eqb_refl].
      apply in_map. apply in_py_range_from. lia. }
  split; [apply Hiff|]. split.
  - intros Hok. apply Hiff in Hok as (n & Hn & ->).
    exists n. eexists. split; [apply py_int_py_str; lia|].
    split; [exact Hn|]. split; [apply init_packs; lia|].
    cbn [Deck._Deck__cards]. rewrite length_packs, length_py_range. lia.
  - destruct (fst (Interface.is_valid_deck_quantity "0")) eqn:Hz;
      [|reflexivity].
    apply Hiff in Hz as (n & Hn & Hstr). exfalso.
    assert (Hint : py_int (py_str n) = Ok n) by (apply py_int_py_str; lia).
    rewrite <- Hstr in Hint. vm_compute in Hint. injection Hint as <-. lia.
Qed.

(** X25.  [is_valid_name] refuses the empty name and accepts every other
    one, and the names it accepts are those [Player] takes: for an accepted
    name [Player(name, purse)] returns a player of that name. *)
Theorem name_accepted (user_input : string) (purse : Z) :
  (fst (Interface.is_valid_name user_input) = true <->
   user_input <> EmptyString) /\
  (fst (Interface.is_valid_name user_input) = true <->
   exists p, Player.init user_input purse = Ok p /\
             Player.__name p = user_input).
Proof.
  unfold Interface.is_valid_name, Player.init.
  destruct (String.eqb_spec user_input EmptyString) as [->|Hne]; cbn [fst].
  - split; split; try discriminate.
    + intros Hne. now contradiction Hne.
    + intros (p & Hp & _). discriminate.
  - split; split; intros _; try reflexivity; try exact Hne.
    eexists. split; reflexivity.
Qed.

(** * The five-card limit *)

Section FiveCards.






End FiveCards.



(** X27.  [hit] does not look at the active flag of the hand it is given: on
    any hand of the heap, stood or bust or already holding five cards, with a
    card on the deck, it returns and the hand holds one card more; a hand
    that was inactive stays inactive. *)
Theorem hit_ignores_active_flag {H : Type} `{HasHands.ops H}
    (w : World H) (r : ref) (h : Hand.t) (c : Card.t) (rest : list Card.t) :
  heap w !! r = Some h ->
  Deck._Deck__cards (deck w) = c :: rest ->
  exists h' : Hand.t,
    HasHands.hit (Some r) w
    = (Ok tt, mkWorld (self w) (<[r := h']> (heap w))
                      (Deck.set_cards rest (deck w))) /\
    Hand.__cards h' = Hand.__cards h ++ [c] /\
    length (Hand.__cards h') = S (length (Hand.__cards h)) /\
    (Hand.__is_active h = false -> Hand.__is_active h' = false).
Proof.
  intros Hr Hd. exists (after_hit c h).
  split; [now apply hit_at|].
  unfold after_hit. destruct (_ || _);
    cbn [Hand.set_is_active Hand.set_cards Hand.__cards Hand.__is_active];
    rewrite length_app; cbn [length]; repeat split; auto; lia.
Qed.

Lemma hit_ignores_active_flag_witness :
  exists h' : Hand.t,
    HasHands.hit (Some 0%nat) Scene.second_hand
    = (Ok tt, mkWorld (self Scene.second_hand)
                      (<[0%nat := h']> (heap Scene.second_hand))
                      (Deck.mk [] None)) /\
    length (Hand.__cards h') = 3%nat /\
    Hand.__is_active h' = false.
Proof.
  destruct (hit_ignores_active_flag Scene.second_hand 0%nat
              (Hand.mk [Example.card Ten Spades; Example.card Nine Hearts]
                       (Some 40) false)
              (Example.card Ten Hearts) [] eq_refl eq_refl)
    as (h' & Hrun & _ & Hlen & Hact).
  exists h'. split; [exact Hrun|]. split; [exact Hlen | now apply Hact].
Defined.
